(** * The conversation manager of the chat widget

    A shallow embedding of [createConversation] (the conversation state
    manager of the chat SDK) and the properties of its timeline, its one-shot
    context handshake, its failure recovery and its subscriber registry.

    Conventions of the embedding:
    - an optional field [f?: T] (absent or [undefined]) is an [option T];
    - the closure variables [state] and [subscribers] are threaded through a
      small state monad [M], which also records the observable effects
      (subscriber calls, socket writes, HTTP posts) in call order and carries
      the completion of the call (normal return or a thrown exception);
    - [new Date().getTime()] is an input of every operation that reads it;
    - a subscriber is known by its identity only ([!==] on functions); it is
      a side-effect-only observer, so calling it is an effect in the trace;
    - the [any] payload handed to the response handler is read at the fields
      the handler reads, with the types [BotResponsePayload] declares;
    - [socket.send] and [fetch] are requests to the platform, recorded as
      effects; what the platform makes of them comes back as a later event
      (a settled promise, a socket frame). The state of the connection is
      not part of the manager. *)

From Stdlib Require Import ZArith List String Ascii Bool Lia.
From stdpp Require Import base option list strings gmap.
Import ListNotations.

#[local] Set Warnings "-register-all".
Local Open Scope string_scope.
Local Open Scope list_scope.

(** ** Data model *)

(** [any]: an opaque JSON-like value (slot values, context entries). The
    manager never inspects one; a number is kept as its literal. *)
Inductive Json : Type :=
| JNull
| JBool (b : bool)
| JNumber (literal : string)
| JString (s : string)
| JArray (items : list Json)
| JObject (fields : list (string * Json)).

(** [Record<string, any>] *)
Abbreviation Dict := (gmap string Json).

Definition Time : Type := Z.

Module Choice.
Record t : Type := mk { choiceId : string; choiceText : string }.
End Choice.

Module BotMessage.
Record t : Type := mk {
  messageId : option string;
  text : string;
  choices : list Choice.t;
  selectedChoiceId : option string
}.
End BotMessage.

Module BotResponseMetadata.
Record t : Type := mk {
  intentId : option string;
  escalation : option bool;
  frustration : option bool;
  incomprehension : option bool
}.
End BotResponseMetadata.

Module BotResponsePayload.
Record t : Type := mk {
  conversationId : option string;
  messages : list BotMessage.t;
  metadata : option BotResponseMetadata.t;
  payload : option string;
  context : option Dict
}.
End BotResponsePayload.

Inductive UserResponsePayload : Type :=
| TextPayload (text : string)
| ChoicePayload (choiceId : string).

(** [Response = BotResponse | UserResponse], the [type] field is the tag. *)
Inductive Response : Type :=
| BotResponse (receivedAt : Time) (payload : BotResponsePayload.t)
| UserResponse (receivedAt : Time) (payload : UserResponsePayload).

Definition State : Type := list Response.

Module Slot.
Record t : Type := mk { slotId : string; value : Json }.
End Slot.

Module StructuredRequest.
Record t : Type := mk {
  choiceId : option string;
  intentId : option string;
  slots : option (list Slot.t)
}.
End StructuredRequest.

Module Experimental.
Record t : Type := mk { channelType : option string }.
End Experimental.

Module Config.
Record t : Type := mk {
  botUrl : string;
  userId : option string;
  failureMessages : option (list string);
  greetingMessages : option (list string);
  context : option Dict;
  triggerWelcomeIntent : option bool;
  headers : option (gmap string string);
  languageCode : option string;
  experimental : option Experimental.t
}.
End Config.

Definition defaultFailureMessages : list string :=
  ["We encountered an issue while contacting the server. Please try again in a few moments."].

Module InternalState.
Record t : Type := mk {
  responses : list Response;
  conversationId : option string;
  userId : option string;
  contextSent : bool
}.
End InternalState.

(** [Partial<InternalState>]: a key is present ([Some]) or not; a present
    key may hold [undefined] (as [conversationId] does in [reset]). *)
Module Partial.
Record t : Type := mk {
  responses : option (list Response);
  conversationId : option (option string);
  userId : option (option string);
  contextSent : option bool
}.
End Partial.

Definition fromInternal (internalState : InternalState.t) : State :=
  InternalState.responses internalState.

(** A subscriber function, by reference identity. *)
Definition Subscriber : Type := nat.

(** *** Wire shapes *)

Inductive Request : Type :=
| Unstructured (text : string)
| Structured (structured : StructuredRequest.t).

(** The [body] the public operations hand to [sendToBot]. *)
Module Body.
Record t : Type := mk {
  userId : option string;
  conversationId : option string;
  request : Request
}.
End Body.

(** [bodyWithContext], the object that is serialised and sent. *)
Module BodyWithContext.
Record t : Type := mk {
  context : option Dict;
  userId : option string;
  conversationId : option string;
  request : Request;
  languageCode : option string;
  channelType : option string
}.
End BodyWithContext.

(** One element of [response.messages], as the handler reads it. *)
Module WireMessage.
Record t : Type := mk {
  messageId : option string;
  text : string;
  choices : option (list Choice.t)
}.
End WireMessage.

Module WirePayload.
Record t : Type := mk {
  conversationId : option string;
  messages : list WireMessage.t;
  metadata : option BotResponseMetadata.t;
  payload : option string;
  context : option Dict
}.
End WirePayload.

(** The [response: any] of the response handler: a falsy value, the
    [{ isPending: true }] sentinel, or a payload. *)
Inductive Reply : Type :=
| ReplyNull
| ReplyUndefined
| ReplyPending
| ReplyPayload (response : WirePayload.t).

(** What [sendToBot] returns: a promise that is already resolved (streaming
    transport) or the promise of the HTTP call. *)
Inductive BotPromise : Type :=
| PromiseResolve (value : Reply)
| PromiseFetch.

(** How such a promise settles. *)
Inductive Outcome : Type :=
| Resolved (response : Reply)
| Rejected.

(** [e.data] of a socket message event. *)
Inductive MessageData : Type :=
| DataString (data : string)
| DataBinary.

(** ** Effects, completions and the manager monad *)

Inductive Effect : Type :=
| Notify (subscriber : Subscriber) (snapshot : State)
| SocketOpen (url : string)
| SocketSend (body : BodyWithContext.t)
| FetchPost (url : string) (headers : gmap string string) (body : BodyWithContext.t).

Inductive Exn : Type :=
| SyntaxError.

Inductive Completion (A : Type) : Type :=
| Normal (a : A)
| Throw (e : Exn).
Arguments Normal {A} a.
Arguments Throw {A} e.

(** The mutable variables of the closure. *)
Record Manager : Type := mkManager {
  state : InternalState.t;
  subscribers : list Subscriber
}.

Definition M (A : Type) : Type :=
  Manager -> Completion A * Manager * list Effect.

Definition ret {A} (a : A) : M A := fun m => (Normal a, m, []).

Definition bind {A B} (c : M A) (k : A -> M B) : M B := fun m =>
  match c m with
  | (Normal a, m1, t1) =>
      match k a m1 with
      | (r, m2, t2) => (r, m2, t1 ++ t2)
      end
  | (Throw e, m1, t1) => (Throw e, m1, t1)
  end.

(** [try { c } catch (e) { h(e) }] *)
Definition tryCatch {A} (c : M A) (h : Exn -> M A) : M A := fun m =>
  match c m with
  | (Normal a, m1, t1) => (Normal a, m1, t1)
  | (Throw e, m1, t1) =>
      match h e m1 with
      | (r, m2, t2) => (r, m2, t1 ++ t2)
      end
  end.

Definition throw {A} (e : Exn) : M A := fun m => (Throw e, m, []).
Definition getState : M InternalState.t := fun m => (Normal (state m), m, []).
Definition putState (s : InternalState.t) : M unit := fun m =>
  (Normal tt, {| state := s; subscribers := subscribers m |}, []).
Definition getSubscribers : M (list Subscriber) := fun m =>
  (Normal (subscribers m), m, []).
Definition putSubscribers (l : list Subscriber) : M unit := fun m =>
  (Normal tt, {| state := state m; subscribers := l |}, []).
Definition emit (e : Effect) : M unit := fun m => (Normal tt, m, [e]).

#[export] Instance M_ret : MRet M := @ret.
#[export] Instance M_bind : MBind M := fun A B k c => bind c k.

(** [l.forEach(f)] *)
Fixpoint forEach {A} (l : list A) (f : A -> M unit) : M unit :=
  match l with
  | [] => ret tt
  | x :: l' => f x ;; forEach l' f
  end.

Definition completion {A} (r : Completion A * Manager * list Effect) : Completion A :=
  fst (fst r).
Definition after {A} (r : Completion A * Manager * list Effect) : Manager :=
  snd (fst r).
Definition trace {A} (r : Completion A * Manager * list Effect) : list Effect :=
  snd r.

(** ** The manager: [createConversation] *)

(** [{ ...state, ...change }] *)
Definition spread (s : InternalState.t) (change : Partial.t) : InternalState.t :=
  {| InternalState.responses :=
       match Partial.responses change with
       | Some v => v
       | None => InternalState.responses s
       end;
     InternalState.conversationId :=
       match Partial.conversationId change with
       | Some v => v
       | None => InternalState.conversationId s
       end;
     InternalState.userId :=
       match Partial.userId change with
       | Some v => v
       | None => InternalState.userId s
       end;
     InternalState.contextSent :=
       match Partial.contextSent change with
       | Some v => v
       | None => InternalState.contextSent s
       end |}.

(** [l.indexOf(x)] on an array of strings: the first index, or [-1]. *)
Fixpoint indexOf (l : list string) (x : string) : Z :=
  match l with
  | [] => (-1)%Z
  | y :: l' =>
      if String.eqb y x then 0%Z
      else match indexOf l' x with
           | Zneg _ => (-1)%Z
           | i => (i + 1)%Z
           end
  end.

(** The rewrite [sendChoice] applies to one bot message. *)
Definition selectChoice (choiceId : string) (botMessage : BotMessage.t) : BotMessage.t :=
  {| BotMessage.messageId := BotMessage.messageId botMessage;
     BotMessage.text := BotMessage.text botMessage;
     BotMessage.choices := BotMessage.choices botMessage;
     BotMessage.selectedChoiceId :=
       if (indexOf (map Choice.choiceId (BotMessage.choices botMessage)) choiceId >? -1)%Z
       then Some choiceId
       else BotMessage.selectedChoiceId botMessage |}.

(** ... and to one entry of the timeline. *)
Definition selectChoiceIn (choiceId : string) (response : Response) : Response :=
  match response with
  | BotResponse receivedAt payload =>
      BotResponse receivedAt
        {| BotResponsePayload.conversationId := BotResponsePayload.conversationId payload;
           BotResponsePayload.messages :=
             map (selectChoice choiceId) (BotResponsePayload.messages payload);
           BotResponsePayload.metadata := BotResponsePayload.metadata payload;
           BotResponsePayload.payload := BotResponsePayload.payload payload;
           BotResponsePayload.context := BotResponsePayload.context payload |}
  | UserResponse _ _ => response
  end.

Section Conversation.

Variable config : Config.t.

(** The initial value of [state]. *)
Definition initialState (now : Time) : InternalState.t :=
  {| InternalState.responses :=
       match Config.greetingMessages config with
       | Some (g :: gs) =>
           [BotResponse now
              {| BotResponsePayload.conversationId := None;
                 BotResponsePayload.messages :=
                   map (fun greetingMessage =>
                          {| BotMessage.messageId := None;
                             BotMessage.text := greetingMessage;
                             BotMessage.choices := [];
                             BotMessage.selectedChoiceId := None |})
                       (g :: gs);
                 BotResponsePayload.metadata := None;
                 BotResponsePayload.payload := None;
                 BotResponsePayload.context := None |}]
       | _ => []
       end;
     InternalState.userId := Config.userId config;
     InternalState.conversationId := None;
     InternalState.contextSent := false |}.

Definition setState (change : Partial.t) : M unit :=
  s ← getState;
  putState (spread s change) ;;
  subs ← getSubscribers;
  forEach subs (fun subscriber =>
    s' ← getState;
    emit (Notify subscriber (fromInternal s'))).

Definition failureHandler (now : Time) : M unit :=
  s ← getState;
  setState
    {| Partial.responses := Some (
         InternalState.responses s ++
         [BotResponse now
            {| BotResponsePayload.conversationId := None;
               BotResponsePayload.messages :=
                 map (fun messageBody =>
                        {| BotMessage.messageId := None;
                           BotMessage.text := messageBody;
                           BotMessage.choices := [];
                           BotMessage.selectedChoiceId := None |})
                     (match Config.failureMessages config with
                      | Some l => l
                      | None => defaultFailureMessages
                      end);
               BotResponsePayload.metadata := None;
               BotResponsePayload.payload := None;
               BotResponsePayload.context := None |}]);
       Partial.conversationId := None;
       Partial.userId := None;
       Partial.contextSent := None |}.

Definition messageResposeHandler (now : Time) (response : Reply) : M unit :=
  match response with
  | ReplyPayload response =>
      s ← getState;
      setState
        {| Partial.conversationId := Some (WirePayload.conversationId response);
           Partial.responses := Some (
             InternalState.responses s ++
             [BotResponse now
                {| BotResponsePayload.conversationId := WirePayload.conversationId response;
                   BotResponsePayload.messages :=
                     map (fun message =>
                            {| BotMessage.messageId := WireMessage.messageId message;
                               BotMessage.text := WireMessage.text message;
                               BotMessage.choices :=
                                 match WireMessage.choices message with
                                 | Some l => l
                                 | None => []
                                 end;
                               BotMessage.selectedChoiceId := None |})
                         (WirePayload.messages response);
                   BotResponsePayload.metadata := WirePayload.metadata response;
                   BotResponsePayload.payload := WirePayload.payload response;
                   BotResponsePayload.context := WirePayload.context response |}]);
           Partial.userId := None;
           Partial.contextSent := None |}
  | ReplyNull | ReplyUndefined | ReplyPending => ret tt
  end.

(** [config.botUrl && config.botUrl.indexOf("wss://") === 0] *)
Definition isUsingWebSockets : bool :=
  match String.index 0 "wss://" (Config.botUrl config) with
  | Some O => true
  | _ => false
  end.

Definition sendToBot (body : Body.t) : M BotPromise :=
  s ← getState;
  let bodyWithContext :=
    {| BodyWithContext.context :=
         match Config.context config with
         | Some c => if negb (InternalState.contextSent s) then Some c else None
         | None => None
         end;
       BodyWithContext.userId := Body.userId body;
       BodyWithContext.conversationId := Body.conversationId body;
       BodyWithContext.request := Body.request body;
       BodyWithContext.languageCode := Config.languageCode config;
       BodyWithContext.channelType :=
         match Config.experimental config with
         | Some e => Experimental.channelType e
         | None => None
         end |} in
  (if negb (InternalState.contextSent s)
   then putState (spread s {| Partial.responses := None;
                              Partial.conversationId := None;
                              Partial.userId := None;
                              Partial.contextSent := Some true |})
   else ret tt) ;;
  if isUsingWebSockets
  then emit (SocketSend bodyWithContext) ;;
       ret (PromiseResolve ReplyPending)
  else emit (FetchPost (Config.botUrl config)
               (<["content-type" := "application/json"]>
                  (match Config.headers config with
                   | Some h => h
                   | None => ∅
                   end))
               bodyWithContext) ;;
       ret PromiseFetch.

(** [.then(messageResposeHandler).catch(failureHandler)]: what runs when the
    promise of an outbound call settles. The handlers run in a later turn of
    the event loop, never inside the operation that made the call. *)
Definition settled (now : Time) (o : Outcome) : M unit :=
  match o with
  | Resolved response =>
      tryCatch (messageResposeHandler now response) (fun _ => failureHandler now)
  | Rejected => failureHandler now
  end.

Definition sendIntent (intentId : string) : M unit :=
  s ← getState;
  sendToBot
    {| Body.userId := InternalState.userId s;
       Body.conversationId := InternalState.conversationId s;
       Body.request := Structured
         {| StructuredRequest.intentId := Some intentId;
            StructuredRequest.choiceId := None;
            StructuredRequest.slots := None |} |} ;;
  ret tt.

Definition sendText (now : Time) (text : string) : M unit :=
  s ← getState;
  setState
    {| Partial.responses := Some (
         InternalState.responses s ++ [UserResponse now (TextPayload text)]);
       Partial.conversationId := None;
       Partial.userId := None;
       Partial.contextSent := None |} ;;
  s ← getState;
  sendToBot
    {| Body.userId := InternalState.userId s;
       Body.conversationId := InternalState.conversationId s;
       Body.request := Unstructured text |} ;;
  ret tt.

Definition sendStructured (structured : StructuredRequest.t) : M unit :=
  s ← getState;
  sendToBot
    {| Body.userId := InternalState.userId s;
       Body.conversationId := InternalState.conversationId s;
       Body.request := Structured structured |} ;;
  ret tt.

Definition sendSlots (slots : list Slot.t) : M unit :=
  s ← getState;
  sendToBot
    {| Body.userId := InternalState.userId s;
       Body.conversationId := InternalState.conversationId s;
       Body.request := Structured
         {| StructuredRequest.slots := Some slots;
            StructuredRequest.choiceId := None;
            StructuredRequest.intentId := None |} |} ;;
  ret tt.

Definition sendChoice (now : Time) (choiceId : string) : M unit :=
  s ← getState;
  let newResponses :=
    map (selectChoiceIn choiceId) (InternalState.responses s) ++
    [UserResponse now (ChoicePayload choiceId)] in
  setState
    {| Partial.responses := Some newResponses;
       Partial.conversationId := None;
       Partial.userId := None;
       Partial.contextSent := None |} ;;
  s ← getState;
  sendToBot
    {| Body.userId := InternalState.userId s;
       Body.conversationId := InternalState.conversationId s;
       Body.request := Structured
         {| StructuredRequest.choiceId := Some choiceId;
            StructuredRequest.intentId := None;
            StructuredRequest.slots := None |} |} ;;
  ret tt.

Definition currentConversationId : M (option string) :=
  s ← getState;
  ret (InternalState.conversationId s).

Definition subscribe (subscriber : Subscriber) : M unit :=
  subs ← getSubscribers;
  putSubscribers (subs ++ [subscriber]) ;;
  s ← getState;
  emit (Notify subscriber (fromInternal s)).

Definition unsubscribe (subscriber : Subscriber) : M unit :=
  subs ← getSubscribers;
  putSubscribers (List.filter (fun fn => negb (Nat.eqb fn subscriber)) subs).

Definition unsubscribeAll : M unit :=
  putSubscribers [].

Definition reset : M unit :=
  setState
    {| Partial.conversationId := Some None;
       Partial.responses := None;
       Partial.userId := None;
       Partial.contextSent := None |}.

(** The body of [createConversation]: the closure variables are set up, the
    socket is opened on the streaming transport and the welcome intent is
    fired when asked for. *)
Definition createConversation (now : Time) : Completion unit * Manager * list Effect :=
  ((if isUsingWebSockets then emit (SocketOpen (Config.botUrl config)) else ret tt) ;;
   (match Config.triggerWelcomeIntent config with
    | Some true => sendIntent "NLX.Welcome"
    | _ => ret tt
    end))
  {| state := initialState now; subscribers := [] |}.

End Conversation.

(** ** The streaming transport's inbound frames *)

(** [JSON.parse] belongs to the platform. Which texts it accepts is the JSON
    grammar (ECMA-404), recognised here by a pushdown automaton that reads
    the text once, one character at a time; on any other text it throws a
    [SyntaxError]. *)
Module JSONText.

Local Open Scope char_scope.

Inductive Container : Type := InArray | InObject.

Inductive Expect : Type :=
| Value | ArrayStart | ObjectStart | Key | Colon | AfterValue
| InString (key : bool) | Escape (key : bool) | Hex (key : bool) (remaining : nat)
| Literal (rest : list ascii)
| Minus | Zero | IntDigits | Dot | FracDigits | Exp | ExpSign | ExpDigits.

Definition isWhitespace (c : ascii) : bool :=
  Ascii.eqb c " " || Ascii.eqb c "009" || Ascii.eqb c "010" || Ascii.eqb c "013".

Definition isDigit (c : ascii) : bool :=
  (48 <=? nat_of_ascii c)%nat && (nat_of_ascii c <=? 57)%nat.

Definition isDigit19 (c : ascii) : bool :=
  (49 <=? nat_of_ascii c)%nat && (nat_of_ascii c <=? 57)%nat.

Definition isHexDigit (c : ascii) : bool :=
  isDigit c
  || ((65 <=? nat_of_ascii c)%nat && (nat_of_ascii c <=? 70)%nat)
  || ((97 <=? nat_of_ascii c)%nat && (nat_of_ascii c <=? 102)%nat).

Definition isControl (c : ascii) : bool := (nat_of_ascii c <? 32)%nat.

(** ["034"] is the double quote, ["092"] the backslash. *)

Definition isExponentMark (c : ascii) : bool := Ascii.eqb c "e" || Ascii.eqb c "E".

Definition afterValue (stack : list Container) (c : ascii)
  : option (Expect * list Container) :=
  if isWhitespace c then Some (AfterValue, stack)
  else match stack with
       | InArray :: outer =>
           if Ascii.eqb c "," then Some (Value, stack)
           else if Ascii.eqb c "]" then Some (AfterValue, outer)
           else None
       | InObject :: outer =>
           if Ascii.eqb c "," then Some (Key, stack)
           else if Ascii.eqb c "}" then Some (AfterValue, outer)
           else None
       | [] => None
       end.

Definition beginValue (stack : list Container) (c : ascii)
  : option (Expect * list Container) :=
  if Ascii.eqb c "{" then Some (ObjectStart, InObject :: stack)
  else if Ascii.eqb c "[" then Some (ArrayStart, InArray :: stack)
  else if Ascii.eqb c "034" then Some (InString false, stack)
  else if Ascii.eqb c "-" then Some (Minus, stack)
  else if Ascii.eqb c "0" then Some (Zero, stack)
  else if isDigit19 c then Some (IntDigits, stack)
  else if Ascii.eqb c "t" then Some (Literal ["r"; "u"; "e"], stack)
  else if Ascii.eqb c "f" then Some (Literal ["a"; "l"; "s"; "e"], stack)
  else if Ascii.eqb c "n" then Some (Literal ["u"; "l"; "l"], stack)
  else None.

Definition next (e : Expect) (stack : list Container) (c : ascii)
  : option (Expect * list Container) :=
  match e with
  | Value =>
      if isWhitespace c then Some (Value, stack) else beginValue stack c
  | ArrayStart =>
      if isWhitespace c then Some (ArrayStart, stack)
      else if Ascii.eqb c "]" then Some (AfterValue, tail stack)
      else beginValue stack c
  | ObjectStart =>
      if isWhitespace c then Some (ObjectStart, stack)
      else if Ascii.eqb c "}" then Some (AfterValue, tail stack)
      else if Ascii.eqb c "034" then Some (InString true, stack)
      else None
  | Key =>
      if isWhitespace c then Some (Key, stack)
      else if Ascii.eqb c "034" then Some (InString true, stack)
      else None
  | Colon =>
      if isWhitespace c then Some (Colon, stack)
      else if Ascii.eqb c ":" then Some (Value, stack)
      else None
  | AfterValue => afterValue stack c
  | InString key =>
      if Ascii.eqb c "034" then Some (if key then Colon else AfterValue, stack)
      else if Ascii.eqb c "092" then Some (Escape key, stack)
      else if isControl c then None
      else Some (InString key, stack)
  | Escape key =>
      if Ascii.eqb c "034" || Ascii.eqb c "092" || Ascii.eqb c "/" || Ascii.eqb c "b"
         || Ascii.eqb c "f" || Ascii.eqb c "n" || Ascii.eqb c "r" || Ascii.eqb c "t"
      then Some (InString key, stack)
      else if Ascii.eqb c "u" then Some (Hex key 4, stack)
      else None
  | Hex key remaining =>
      if isHexDigit c
      then match remaining with
           | O => None
           | S O => Some (InString key, stack)
           | S n => Some (Hex key n, stack)
           end
      else None
  | Literal rest =>
      match rest with
      | [] => None
      | [x] => if Ascii.eqb c x then Some (AfterValue, stack) else None
      | x :: rest' => if Ascii.eqb c x then Some (Literal rest', stack) else None
      end
  | Minus =>
      if Ascii.eqb c "0" then Some (Zero, stack)
      else if isDigit19 c then Some (IntDigits, stack)
      else None
  | Zero =>
      if Ascii.eqb c "." then Some (Dot, stack)
      else if isExponentMark c then Some (Exp, stack)
      else afterValue stack c
  | IntDigits =>
      if isDigit c then Some (IntDigits, stack)
      else if Ascii.eqb c "." then Some (Dot, stack)
      else if isExponentMark c then Some (Exp, stack)
      else afterValue stack c
  | Dot =>
      if isDigit c then Some (FracDigits, stack) else None
  | FracDigits =>
      if isDigit c then Some (FracDigits, stack)
      else if isExponentMark c then Some (Exp, stack)
      else afterValue stack c
  | Exp =>
      if Ascii.eqb c "+" || Ascii.eqb c "-" then Some (ExpSign, stack)
      else if isDigit c then Some (ExpDigits, stack)
      else None
  | ExpSign =>
      if isDigit c then Some (ExpDigits, stack) else None
  | ExpDigits =>
      if isDigit c then Some (ExpDigits, stack) else afterValue stack c
  end.

(** At the end of the text a complete top-level value must have been read. *)
Definition complete (e : Expect) (stack : list Container) : bool :=
  match stack, e with
  | [], (AfterValue | Zero | IntDigits | FracDigits | ExpDigits) => true
  | _, _ => false
  end.

Fixpoint accepts (e : Expect) (stack : list Container) (cs : list ascii) : bool :=
  match cs with
  | [] => complete e stack
  | c :: cs' =>
      match next e stack c with
      | Some (e', stack') => accepts e' stack' cs'
      | None => false
      end
  end.

Definition wellFormed (text : string) : bool :=
  accepts Value [] (list_ascii_of_string text).

End JSONText.

(** ** Events of one manager: calls, settled promises, socket frames *)

Inductive Operation : Type :=
| CallSendText (text : string)
| CallSendSlots (slots : list Slot.t)
| CallSendChoice (choiceId : string)
| CallSendIntent (intentId : string)
| CallSendStructured (request : StructuredRequest.t)
| CallSubscribe (subscriber : Subscriber)
| CallUnsubscribe (subscriber : Subscriber)
| CallUnsubscribeAll
| CallCurrentConversationId
| CallReset.

Inductive Event : Type :=
| Call (op : Operation)
| Settle (o : Outcome)
| SocketMessage (data : MessageData).

Section EventLoop.

Variable config : Config.t.

(** The value [JSON.parse] returns for a well-formed text, as the response
    handler reads it. *)
Variable decode : string -> Reply.

Definition JSON_parse (text : string) : M Reply :=
  if JSONText.wellFormed text then ret (decode text) else throw SyntaxError.

(** [socket.onmessage] *)
Definition onmessage (now : Time) (data : MessageData) : M unit :=
  match data with
  | DataString text =>
      response ← JSON_parse text;
      messageResposeHandler now response
  | DataBinary => ret tt
  end.

Definition perform (now : Time) (op : Operation) : M unit :=
  match op with
  | CallSendText text => sendText config now text
  | CallSendSlots slots => sendSlots config slots
  | CallSendChoice choiceId => sendChoice config now choiceId
  | CallSendIntent intentId => sendIntent config intentId
  | CallSendStructured request => sendStructured config request
  | CallSubscribe subscriber => subscribe subscriber
  | CallUnsubscribe subscriber => unsubscribe subscriber
  | CallUnsubscribeAll => unsubscribeAll
  | CallCurrentConversationId => currentConversationId ;; ret tt
  | CallReset => reset
  end.

(** One turn of the event loop. The socket handler exists only on the
    streaming transport. *)
Definition handle (now : Time) (ev : Event) : M unit :=
  match ev with
  | Call op => perform now op
  | Settle o => settled config now o
  | SocketMessage data =>
      if isUsingWebSockets config then onmessage now data else ret tt
  end.

(** The managers after each event, oldest first; an exception ends the
    turn it was thrown in, nothing more. *)
Fixpoint statesFrom (evs : list (Time * Event)) (m : Manager) : list Manager :=
  match evs with
  | [] => []
  | (now, ev) :: evs' =>
      let m' := after (handle now ev m) in
      m' :: statesFrom evs' m'
  end.

Fixpoint traceFrom (evs : list (Time * Event)) (m : Manager) : list Effect :=
  match evs with
  | [] => []
  | (now, ev) :: evs' =>
      trace (handle now ev m) ++ traceFrom evs' (after (handle now ev m))
  end.

Fixpoint runFrom (evs : list (Time * Event)) (m : Manager) : Manager :=
  match evs with
  | [] => m
  | (now, ev) :: evs' => runFrom evs' (after (handle now ev m))
  end.

(** A whole lifetime: construction at [now0], then the events [evs]. *)
Definition run (now0 : Time) (evs : list (Time * Event)) : Manager :=
  runFrom evs (after (createConversation config now0)).

Definition runTrace (now0 : Time) (evs : list (Time * Event)) : list Effect :=
  trace (createConversation config now0) ++
  traceFrom evs (after (createConversation config now0)).

End EventLoop.

(** The bodies of the outbound calls of a trace, in dispatch order. *)
Definition dispatched (t : list Effect) : list BodyWithContext.t :=
  flat_map (fun e => match e with
                     | SocketSend body => [body]
                     | FetchPost _ _ body => [body]
                     | _ => []
                     end) t.

(** ** Vocabulary of the statements *)

(** The manager and the notifications [setState] leaves behind. *)
Definition changed (change : Partial.t) (m : Manager) : Manager :=
  {| state := spread (state m) change; subscribers := subscribers m |}.

Definition notifications (m : Manager) : list Effect :=
  map (fun f => Notify f (fromInternal (state m))) (subscribers m).

Section DispatchVocabulary.

Variable config : Config.t.

(** The body [sendToBot] builds in state [s], the state it leaves, the
    effect of the transport and the promise it returns. *)
Definition bodyWithContext (s : InternalState.t) (body : Body.t) : BodyWithContext.t :=
  {| BodyWithContext.context :=
       match Config.context config with
       | Some c => if negb (InternalState.contextSent s) then Some c else None
       | None => None
       end;
     BodyWithContext.userId := Body.userId body;
     BodyWithContext.conversationId := Body.conversationId body;
     BodyWithContext.request := Body.request body;
     BodyWithContext.languageCode := Config.languageCode config;
     BodyWithContext.channelType :=
       match Config.experimental config with
       | Some e => Experimental.channelType e
       | None => None
       end |}.

Definition contextMarked (s : InternalState.t) : InternalState.t :=
  if negb (InternalState.contextSent s)
  then spread s {| Partial.responses := None;
                   Partial.conversationId := None;
                   Partial.userId := None;
                   Partial.contextSent := Some true |}
  else s.

Definition transport (b : BodyWithContext.t) : Effect :=
  if isUsingWebSockets config then SocketSend b
  else FetchPost (Config.botUrl config)
         (<["content-type" := "application/json"]>
            (match Config.headers config with
             | Some h => h
             | None => ∅
             end))
         b.

Definition promised : BotPromise :=
  if isUsingWebSockets config then PromiseResolve ReplyPending else PromiseFetch.

End DispatchVocabulary.

(** A bot message offers a choice when the id is among its [choices]. *)
Definition offers (choiceId : string) (botMessage : BotMessage.t) : Prop :=
  In choiceId (map Choice.choiceId (BotMessage.choices botMessage)).

(** What selecting [choiceId] may do to one bot message: stamp it when it
    offers the choice, leave it as it is otherwise. *)
Definition stampedMessage (choiceId : string) (old new : BotMessage.t) : Prop :=
  BotMessage.messageId new = BotMessage.messageId old /\
  BotMessage.text new = BotMessage.text old /\
  BotMessage.choices new = BotMessage.choices old /\
  (offers choiceId old -> BotMessage.selectedChoiceId new = Some choiceId) /\
  (~ offers choiceId old -> new = old).

(** ... and to one entry of the timeline: a user turn is kept, a bot turn
    keeps everything but the stamps of its messages. *)
Definition stampedResponse (choiceId : string) (old new : Response) : Prop :=
  match old, new with
  | UserResponse _ _, _ => new = old
  | BotResponse t p, BotResponse t' p' =>
      t' = t /\
      BotResponsePayload.conversationId p' = BotResponsePayload.conversationId p /\
      BotResponsePayload.metadata p' = BotResponsePayload.metadata p /\
      BotResponsePayload.payload p' = BotResponsePayload.payload p /\
      BotResponsePayload.context p' = BotResponsePayload.context p /\
      Forall2 (stampedMessage choiceId)
        (BotResponsePayload.messages p) (BotResponsePayload.messages p')
  | BotResponse _ _, UserResponse _ _ => False
  end.

(** All bot messages of a timeline, in order. *)
Definition botMessages (responses : list Response) : list BotMessage.t :=
  flat_map (fun r => match r with
                     | BotResponse _ p => BotResponsePayload.messages p
                     | UserResponse _ _ => []
                     end) responses.

Definition isNotify (e : Effect) : bool :=
  match e with
  | Notify _ _ => true
  | _ => false
  end.

(** An operation that only dispatches [request]: it returns normally, the
    timeline is the one of [m], nobody is notified and one call goes out. *)
Definition dispatchesOnly (m : Manager) (request : Request)
    (r : Completion unit * Manager * list Effect) : Prop :=
  completion r = Normal tt /\
  InternalState.responses (state (after r)) = InternalState.responses (state m) /\
  List.filter isNotify (trace r) = [] /\
  exists body, dispatched (trace r) = [body] /\ BodyWithContext.request body = request.

(** The payload an event delivers to the response handler, if any: a call
    resolved with a payload, or a well-formed socket frame that holds one. *)
Definition delivered (config : Config.t) (decode : string -> Reply) (ev : Event)
  : option WirePayload.t :=
  match ev with
  | Settle (Resolved (ReplyPayload p)) => Some p
  | SocketMessage (DataString text) =>
      if isUsingWebSockets config && JSONText.wellFormed text
      then match decode text with
           | ReplyPayload p => Some p
           | _ => None
           end
      else None
  | _ => None
  end.

(** The conversation id after one event, as the flow of ids is described:
    [reset()] clears it, a delivered payload brings its own, nothing else
    touches it. *)
Definition conversationIdAfter (config : Config.t) (decode : string -> Reply)
    (id : option string) (ev : Event) : option string :=
  match ev with
  | Call CallReset => None
  | _ => match delivered config decode ev with
         | Some p => WirePayload.conversationId p
         | None => id
         end
  end.

(** The number of steps from [false] to [true] in a history of a flag. *)
Fixpoint flips (history : list bool) : nat :=
  match history with
  | [] => 0
  | b :: rest =>
      match rest with
      | b' :: _ => (if negb b && b' then 1 else 0) + flips rest
      | [] => 0
      end
  end.

(** The history of [contextSent] over a lifetime: the initial record, the
    manager [createConversation] returns, then the manager after each event. *)
Definition contextSentHistory (config : Config.t) (decode : string -> Reply)
    (now0 : Time) (evs : list (Time * Event)) : list bool :=
  InternalState.contextSent (initialState config now0) ::
  map (fun m => InternalState.contextSent (state m))
    (after (createConversation config now0) ::
     statesFrom config decode evs (after (createConversation config now0))).

(** Two configurations: the unary transport and the streaming transport. *)
Definition unaryConfig : Config.t :=
  {| Config.botUrl := "https://bot.example/api";
     Config.userId := None;
     Config.failureMessages := None;
     Config.greetingMessages := None;
     Config.context := None;
     Config.triggerWelcomeIntent := None;
     Config.headers := None;
     Config.languageCode := None;
     Config.experimental := None |}.

Definition socketConfig : Config.t :=
  {| Config.botUrl := "wss://bot.example/socket";
     Config.userId := None;
     Config.failureMessages := None;
     Config.greetingMessages := None;
     Config.context := None;
     Config.triggerWelcomeIntent := None;
     Config.headers := None;
     Config.languageCode := None;
     Config.experimental := None |}.

(** A reply that assigns the conversation [id] and says [text]. *)
Definition replyWith (id text : string) : Reply :=
  ReplyPayload
    {| WirePayload.conversationId := Some id;
       WirePayload.messages :=
         [{| WireMessage.messageId := None;
             WireMessage.text := text;
             WireMessage.choices := None |}];
       WirePayload.metadata := None;
       WirePayload.payload := None;
       WirePayload.context := None |}.

(** A reading of frames that finds no payload in any of them. *)
Definition noPayload : string -> Reply := fun _ => ReplyUndefined.

(** A configuration with a context map, on the unary transport. *)
Definition contextConfig : Config.t :=
  {| Config.botUrl := "https://bot.example/api";
     Config.userId := Some "u1";
     Config.failureMessages := None;
     Config.greetingMessages := Some ["Hi"];
     Config.context := Some {[ "plan" := JString "pro" ]};
     Config.triggerWelcomeIntent := None;
     Config.headers := None;
     Config.languageCode := None;
     Config.experimental := None |}.

(** A lifetime in which the first call is rejected. *)
Definition rejectedThenRetried : list (Time * Event) :=
  [(1%Z, Call (CallSendText "hello"));
   (2%Z, Settle Rejected);
   (3%Z, Call (CallSendText "hello again"));
   (4%Z, Settle (Resolved (replyWith "c1" "Welcome")))].

(** Two exchanges, answered under two conversation ids. *)
Definition firstExchange : list (Time * Event) :=
  [(1%Z, Call (CallSendText "hi"));
   (2%Z, Settle (Resolved (replyWith "c1" "hello")))].

Definition secondExchange : list (Time * Event) :=
  [(3%Z, Call (CallSendText "more"));
   (4%Z, Settle (Resolved (replyWith "c2" "again")))].

(** The reply of the choice scenario: one message offering [a] and [b]. *)
Definition pickOne : Reply :=
  ReplyPayload
    {| WirePayload.conversationId := Some "c1";
       WirePayload.messages :=
         [{| WireMessage.messageId := Some "m1";
             WireMessage.text := "Pick one";
             WireMessage.choices :=
               Some [{| Choice.choiceId := "a"; Choice.choiceText := "A" |};
                     {| Choice.choiceId := "b"; Choice.choiceText := "B" |}] |}];
       WirePayload.metadata := None;
       WirePayload.payload := None;
       WirePayload.context := None |}.

Definition selections (responses : list Response) : list (option string) :=
  map BotMessage.selectedChoiceId (botMessages responses).

(** What one event does to the context handshake: either it dispatches
    nothing and leaves [contextSent] alone, or it dispatches one call, which
    carries the context exactly when [contextSent] was still false, and
    leaves [contextSent] true. *)
Definition handshakeStep (config : Config.t) (m : Manager)
    {A} (r : Completion A * Manager * list Effect) : Prop :=
  (dispatched (trace r) = [] /\
   InternalState.contextSent (state (after r)) = InternalState.contextSent (state m)) \/
  (exists body,
     dispatched (trace r) = [body] /\
     BodyWithContext.context body
       = (if InternalState.contextSent (state m) then None else Config.context config) /\
     InternalState.contextSent (state (after r)) = true).

(** The bodies after the first carry no context. *)
Definition contextOnFirstOnly (context : option Dict) (bodies : list BodyWithContext.t) : Prop :=
  match bodies with
  | [] => True
  | first :: later =>
      BodyWithContext.context first = context /\
      Forall (fun b => BodyWithContext.context b = None) later
  end.

(** ** Vocabulary of the properties of whole lifetimes *)

Definition receivedAt (r : Response) : Time :=
  match r with
  | BotResponse t _ => t
  | UserResponse t _ => t
  end.

Definition timestamps (responses : list Response) : list Time :=
  map receivedAt responses.

(** Times that never go back. *)
Fixpoint ascending (l : list Time) : Prop :=
  match l with
  | [] => True
  | x :: rest =>
      match rest with
      | [] => True
      | y :: _ => (x <= y)%Z
      end /\ ascending rest
  end.

(** The events that add an entry to the timeline: a text or a choice of the
    user, a rejected call, a payload delivered to the response handler. *)
Definition appends (config : Config.t) (decode : string -> Reply) (ev : Event) : bool :=
  match ev with
  | Call (CallSendText _) => true
  | Call (CallSendChoice _) => true
  | Settle Rejected => true
  | _ => match delivered config decode ev with
         | Some _ => true
         | None => false
         end
  end.

(** The events that go through [setState]. *)
Definition publishes (config : Config.t) (decode : string -> Reply) (ev : Event) : bool :=
  match ev with
  | Call CallReset => true
  | _ => appends config decode ev
  end.

(** The request an event puts on the transport, if it dispatches. *)
Definition requestOf (ev : Event) : option Request :=
  match ev with
  | Call (CallSendText text) => Some (Unstructured text)
  | Call (CallSendSlots slots) =>
      Some (Structured {| StructuredRequest.slots := Some slots;
                          StructuredRequest.choiceId := None;
                          StructuredRequest.intentId := None |})
  | Call (CallSendChoice choiceId) =>
      Some (Structured {| StructuredRequest.choiceId := Some choiceId;
                          StructuredRequest.intentId := None;
                          StructuredRequest.slots := None |})
  | Call (CallSendIntent intentId) =>
      Some (Structured {| StructuredRequest.intentId := Some intentId;
                          StructuredRequest.choiceId := None;
                          StructuredRequest.slots := None |})
  | Call (CallSendStructured request) => Some (Structured request)
  | _ => None
  end.

(** What an event does to the entries the timeline already has. *)
Definition rewriteAll (ev : Event) (responses : list Response) : list Response :=
  match ev with
  | Call (CallSendChoice choiceId) => map (selectChoiceIn choiceId) responses
  | _ => responses
  end.

(** The payload of the bot turn made from a reply, and of a failure turn. *)
Definition replyPayload (response : WirePayload.t) : BotResponsePayload.t :=
  {| BotResponsePayload.conversationId := WirePayload.conversationId response;
     BotResponsePayload.messages :=
       map (fun message =>
              {| BotMessage.messageId := WireMessage.messageId message;
                 BotMessage.text := WireMessage.text message;
                 BotMessage.choices :=
                   match WireMessage.choices message with
                   | Some l => l
                   | None => []
                   end;
                 BotMessage.selectedChoiceId := None |})
           (WirePayload.messages response);
     BotResponsePayload.metadata := WirePayload.metadata response;
     BotResponsePayload.payload := WirePayload.payload response;
     BotResponsePayload.context := WirePayload.context response |}.

Definition failurePayload (config : Config.t) : BotResponsePayload.t :=
  {| BotResponsePayload.conversationId := None;
     BotResponsePayload.messages :=
       map (fun messageBody =>
              {| BotMessage.messageId := None;
                 BotMessage.text := messageBody;
                 BotMessage.choices := [];
                 BotMessage.selectedChoiceId := None |})
           (match Config.failureMessages config with
            | Some l => l
            | None => defaultFailureMessages
            end);
     BotResponsePayload.metadata := None;
     BotResponsePayload.payload := None;
     BotResponsePayload.context := None |}.

(** The entry an event adds to the timeline, if it adds one. *)
Definition entryOf (config : Config.t) (decode : string -> Reply)
    (now : Time) (ev : Event) : option Response :=
  match ev with
  | Call (CallSendText text) => Some (UserResponse now (TextPayload text))
  | Call (CallSendChoice choiceId) => Some (UserResponse now (ChoicePayload choiceId))
  | Settle Rejected => Some (BotResponse now (failurePayload config))
  | _ => match delivered config decode ev with
         | Some p => Some (BotResponse now (replyPayload p))
         | None => None
         end
  end.

(** The number of entries the constructor seeds the timeline with. *)
Definition greeted (config : Config.t) : nat :=
  match Config.greetingMessages config with
  | Some (_ :: _) => 1
  | _ => 0
  end.

(** A bot message as made from a message of a reply. *)
Definition carries (w : WireMessage.t) (b : BotMessage.t) : Prop :=
  BotMessage.messageId b = WireMessage.messageId w /\
  BotMessage.text b = WireMessage.text w /\
  BotMessage.choices b = match WireMessage.choices w with
                         | Some l => l
                         | None => []
                         end /\
  BotMessage.selectedChoiceId b = None.

(** The selection of a bot message, when it has one, is a choice it offers. *)
Definition selectionOffered (b : BotMessage.t) : Prop :=
  match BotMessage.selectedChoiceId b with
  | Some c => offers c b
  | None => True
  end.

(** A bot message at a later time: the same message, with the selection it
    had or with a selection among its choices. *)
Definition restamped (old new : BotMessage.t) : Prop :=
  BotMessage.messageId new = BotMessage.messageId old /\
  BotMessage.text new = BotMessage.text old /\
  BotMessage.choices new = BotMessage.choices old /\
  (BotMessage.selectedChoiceId new = BotMessage.selectedChoiceId old \/
   exists c, offers c old /\ BotMessage.selectedChoiceId new = Some c).

(** An entry of the timeline at a later time. *)
Definition keptEntry (old new : Response) : Prop :=
  match old, new with
  | UserResponse _ _, _ => new = old
  | BotResponse t p, BotResponse t' p' =>
      t' = t /\
      BotResponsePayload.conversationId p' = BotResponsePayload.conversationId p /\
      BotResponsePayload.metadata p' = BotResponsePayload.metadata p /\
      BotResponsePayload.payload p' = BotResponsePayload.payload p /\
      BotResponsePayload.context p' = BotResponsePayload.context p /\
      Forall2 restamped (BotResponsePayload.messages p) (BotResponsePayload.messages p')
  | BotResponse _ _, UserResponse _ _ => False
  end.

Definition isSendChoice (ev : Event) : bool :=
  match ev with
  | Call (CallSendChoice _) => true
  | _ => false
  end.

(** The conversation ids the calls of a sequence of events carry, when the
    id is [id] before the first of them. *)
Fixpoint idsSent (config : Config.t) (decode : string -> Reply)
    (evs : list (Time * Event)) (id : option string) : list (option string) :=
  match evs with
  | [] => []
  | (_, ev) :: evs' =>
      match requestOf ev with
      | Some _ => [id]
      | None => []
      end ++ idsSent config decode evs' (conversationIdAfter config decode id ev)
  end.

Definition isFetchPost (e : Effect) : bool :=
  match e with
  | FetchPost _ _ _ => true
  | _ => false
  end.

Definition isSocketEffect (e : Effect) : bool :=
  match e with
  | SocketOpen _ | SocketSend _ => true
  | _ => false
  end.

Definition isSocketOpen (e : Effect) : bool :=
  match e with
  | SocketOpen _ => true
  | _ => false
  end.

(** The subscribers called in a trace, in call order. *)
Definition called (t : list Effect) : list Subscriber :=
  flat_map (fun e => match e with
                     | Notify f _ => [f]
                     | _ => []
                     end) t.

(** The registry after an event. *)
Definition registryAfter (subs : list Subscriber) (ev : Event) : list Subscriber :=
  match ev with
  | Call (CallSubscribe f) => subs ++ [f]
  | Call (CallUnsubscribe f) => List.remove Nat.eq_dec f subs
  | Call CallUnsubscribeAll => []
  | _ => subs
  end.

(** The state, the registry and the effects an event leaves, spelled out
    from the event alone. *)
Definition stateAfter (config : Config.t) (decode : string -> Reply)
    (now : Time) (ev : Event) (s : InternalState.t) : InternalState.t :=
  {| InternalState.responses :=
       rewriteAll ev (InternalState.responses s) ++
       match entryOf config decode now ev with
       | Some r => [r]
       | None => []
       end;
     InternalState.conversationId :=
       conversationIdAfter config decode (InternalState.conversationId s) ev;
     InternalState.userId := InternalState.userId s;
     InternalState.contextSent :=
       match requestOf ev with
       | Some _ => true
       | None => InternalState.contextSent s
       end |}.

Definition effectsOf (config : Config.t) (decode : string -> Reply)
    (now : Time) (ev : Event) (m : Manager) : list Effect :=
  match ev with
  | Call (CallSubscribe f) => [Notify f (fromInternal (state m))]
  | _ =>
      (if publishes config decode ev
       then map (fun f => Notify f (fromInternal (stateAfter config decode now ev (state m))))
              (subscribers m)
       else []) ++
      match requestOf ev with
      | Some request =>
          [transport config
             (bodyWithContext config (state m)
                {| Body.userId := InternalState.userId (state m);
                   Body.conversationId := InternalState.conversationId (state m);
                   Body.request := request |})]
      | None => []
      end
  end.

(** The frames that make the socket handler throw. *)
Definition malformed (config : Config.t) (ev : Event) : bool :=
  match ev with
  | SocketMessage (DataString text) =>
      isUsingWebSockets config && negb (JSONText.wellFormed text)
  | _ => false
  end.

(** The configured headers of the unary transport. *)
Definition configuredHeaders (config : Config.t) : gmap string string :=
  match Config.headers config with
  | Some h => h
  | None => ∅
  end.

(** A configuration that greets, fires the welcome intent and sets its own
    headers and passthrough fields. *)
Definition welcomingConfig : Config.t :=
  {| Config.botUrl := "https://bot.example/api";
     Config.userId := Some "u1";
     Config.failureMessages := Some ["Sorry"; "Try later"];
     Config.greetingMessages := Some ["Hi"; "How can I help?"];
     Config.context := Some {[ "plan" := JString "pro" ]};
     Config.triggerWelcomeIntent := Some true;
     Config.headers := Some {[ "content-type" := "text/plain"; "x-api-key" := "k" ]};
     Config.languageCode := Some "en-US";
     Config.experimental := Some {| Experimental.channelType := Some "web" |} |}.

(** A lifetime with texts, a choice, a reply, a failure and a reset. *)
Definition mixedLifetime : list (Time * Event) :=
  [(1%Z, Call (CallSubscribe 1));
   (2%Z, Call (CallSendText "hello"));
   (3%Z, Settle (Resolved pickOne));
   (4%Z, Call (CallSendChoice "a"));
   (5%Z, Settle Rejected);
   (6%Z, Call CallReset);
   (7%Z, Call (CallSendIntent "again"))].

(** A manager in which [1] and [2] subscribed and [1] unsubscribed. *)
Definition oneUnsubscribed : Manager :=
  after (unsubscribe 1
    (after (subscribe 2
      (after (subscribe 1
        (after (createConversation unaryConfig 0%Z))))))).

(** * Properties *)

(** ** How the operations evaluate *)

Lemma bind_normal {A B} (c : M A) (k : A -> M B) (m : Manager) a m1 t1 :
  c m = (Normal a, m1, t1) ->
  (c ≫= k) m = (let '(r, m2, t2) := k a m1 in (r, m2, t1 ++ t2)).
Proof. intros H. unfold mbind, M_bind, bind. rewrite H. reflexivity. Qed.

Lemma forEach_notify (subs : list Subscriber) (m : Manager) :
  forEach subs (fun subscriber =>
                  s' ← getState; emit (Notify subscriber (fromInternal s'))) m
  = (Normal tt, m, map (fun f => Notify f (fromInternal (state m))) subs).
Proof.
  induction subs as [|f subs IH]; [reflexivity|].
  cbn [forEach].
  rewrite (bind_normal _ _ m tt m [Notify f (fromInternal (state m))]) by reflexivity.
  rewrite IH. reflexivity.
Qed.

Lemma setState_eq (change : Partial.t) (m : Manager) :
  setState change m = (Normal tt, changed change m, notifications (changed change m)).
Proof.
  unfold setState.
  unfold mbind at 1, M_bind at 1, bind at 1, getState at 1. cbv beta iota.
  unfold mbind at 1, M_bind at 1, bind at 1, putState at 1. cbv beta iota.
  unfold mbind at 1, M_bind at 1, bind at 1, getSubscribers at 1. cbv beta iota.
  cbn [state subscribers]. rewrite forEach_notify. reflexivity.
Qed.

Section Dispatch.

Variable config : Config.t.

Lemma sendToBot_eq (body : Body.t) (m : Manager) :
  sendToBot config body m
  = (Normal (promised config),
     {| state := contextMarked (state m); subscribers := subscribers m |},
     [transport config (bodyWithContext config (state m) body)]).
Proof.
  destruct m as [s subs].
  unfold sendToBot, promised, transport, contextMarked, bodyWithContext.
  unfold mbind, M_bind, bind, getState. cbn [state subscribers].
  destruct (InternalState.contextSent s); cbn [negb];
    destruct (isUsingWebSockets config); reflexivity.
Qed.

Lemma dispatched_transport (b : BodyWithContext.t) :
  dispatched [transport config b] = [b].
Proof. unfold transport. destruct (isUsingWebSockets config); reflexivity. Qed.

Lemma contextMarked_responses (s : InternalState.t) :
  InternalState.responses (contextMarked s) = InternalState.responses s.
Proof. unfold contextMarked. destruct (InternalState.contextSent s); reflexivity. Qed.

Lemma contextMarked_conversationId (s : InternalState.t) :
  InternalState.conversationId (contextMarked s) = InternalState.conversationId s.
Proof. unfold contextMarked. destruct (InternalState.contextSent s); reflexivity. Qed.

Lemma contextMarked_contextSent (s : InternalState.t) :
  InternalState.contextSent (contextMarked s) = true.
Proof.
  unfold contextMarked. destruct (InternalState.contextSent s) eqn:E; [exact E|reflexivity].
Qed.

(** A dispatch-only operation: [sendIntent], [sendSlots], [sendStructured]. *)
Lemma sendStructured_eq (structured : StructuredRequest.t) (m : Manager) :
  sendStructured config structured m
  = (Normal tt,
     {| state := contextMarked (state m); subscribers := subscribers m |},
     [transport config (bodyWithContext config (state m)
        {| Body.userId := InternalState.userId (state m);
           Body.conversationId := InternalState.conversationId (state m);
           Body.request := Structured structured |})]).
Proof.
  unfold sendStructured.
  rewrite (bind_normal getState _ m (state m) m []) by reflexivity.
  erewrite bind_normal by apply sendToBot_eq. reflexivity.
Qed.

Lemma sendIntent_eq (intentId : string) (m : Manager) :
  sendIntent config intentId m
  = sendStructured config
      {| StructuredRequest.intentId := Some intentId;
         StructuredRequest.choiceId := None;
         StructuredRequest.slots := None |} m.
Proof. reflexivity. Qed.

Lemma sendSlots_eq (slots : list Slot.t) (m : Manager) :
  sendSlots config slots m
  = sendStructured config
      {| StructuredRequest.slots := Some slots;
         StructuredRequest.choiceId := None;
         StructuredRequest.intentId := None |} m.
Proof. reflexivity. Qed.

(** An operation that first replaces the timeline, then dispatches. *)
Lemma setState_then_send (rs : list Response) (request : Request) (m : Manager) :
  let change := {| Partial.responses := Some rs;
                   Partial.conversationId := None;
                   Partial.userId := None;
                   Partial.contextSent := None |} in
  (setState change ;;
   s ← getState;
   sendToBot config
     {| Body.userId := InternalState.userId s;
        Body.conversationId := InternalState.conversationId s;
        Body.request := request |} ;;
   ret tt) m
  = (Normal tt,
     {| state := contextMarked (spread (state m) change); subscribers := subscribers m |},
     notifications (changed change m) ++
     [transport config (bodyWithContext config (spread (state m) change)
        {| Body.userId := InternalState.userId (state m);
           Body.conversationId := InternalState.conversationId (state m);
           Body.request := request |})]).
Proof.
  intros change.
  erewrite bind_normal by apply setState_eq.
  erewrite (bind_normal getState) by reflexivity.
  erewrite bind_normal by apply sendToBot_eq. reflexivity.
Qed.

Lemma sendText_eq (now : Time) (text : string) (m : Manager) :
  let change := {| Partial.responses :=
                     Some (InternalState.responses (state m) ++
                           [UserResponse now (TextPayload text)]);
                   Partial.conversationId := None;
                   Partial.userId := None;
                   Partial.contextSent := None |} in
  sendText config now text m
  = (Normal tt,
     {| state := contextMarked (spread (state m) change); subscribers := subscribers m |},
     notifications (changed change m) ++
     [transport config (bodyWithContext config (spread (state m) change)
        {| Body.userId := InternalState.userId (state m);
           Body.conversationId := InternalState.conversationId (state m);
           Body.request := Unstructured text |})]).
Proof.
  intros change. unfold sendText.
  rewrite (bind_normal getState _ m (state m) m []) by reflexivity.
  rewrite (setState_then_send _ (Unstructured text) m). reflexivity.
Qed.

Lemma sendChoice_eq (now : Time) (choiceId : string) (m : Manager) :
  let change := {| Partial.responses :=
                     Some (map (selectChoiceIn choiceId) (InternalState.responses (state m)) ++
                           [UserResponse now (ChoicePayload choiceId)]);
                   Partial.conversationId := None;
                   Partial.userId := None;
                   Partial.contextSent := None |} in
  sendChoice config now choiceId m
  = (Normal tt,
     {| state := contextMarked (spread (state m) change); subscribers := subscribers m |},
     notifications (changed change m) ++
     [transport config (bodyWithContext config (spread (state m) change)
        {| Body.userId := InternalState.userId (state m);
           Body.conversationId := InternalState.conversationId (state m);
           Body.request := Structured
             {| StructuredRequest.choiceId := Some choiceId;
                StructuredRequest.intentId := None;
                StructuredRequest.slots := None |} |})]).
Proof.
  intros change. unfold sendChoice.
  rewrite (bind_normal getState _ m (state m) m []) by reflexivity.
  cbv zeta.
  rewrite (setState_then_send _
             (Structured {| StructuredRequest.choiceId := Some choiceId;
                            StructuredRequest.intentId := None;
                            StructuredRequest.slots := None |}) m).
  reflexivity.
Qed.

End Dispatch.

(** ** Two scenarios *)

Example wellFormed_samples :
  JSONText.wellFormed "{ }" = true /\
  JSONText.wellFormed " [1, -2.5e+3, true, null] " = true /\
  JSONText.wellFormed "[1,]" = false /\
  JSONText.wellFormed "{" = false /\
  JSONText.wellFormed "hello" = false /\
  JSONText.wellFormed EmptyString = false.
Proof. repeat split. Qed.

(** Greeting, a text, a rejected call, then [reset()]. *)
Example greeting_text_failure_reset :
  let m1 := run contextConfig noPayload 0%Z [(1%Z, Call (CallSendText "hello"))] in
  let m2 := after (handle contextConfig noPayload 2%Z (Settle Rejected) m1) in
  let m3 := after (handle contextConfig noPayload 3%Z (Call CallReset) m2) in
  map BotMessage.text (botMessages (fromInternal (state (run contextConfig noPayload 0%Z []))))
    = ["Hi"] /\
  length (fromInternal (state m1)) = 2 /\
  List.last (fromInternal (state m1)) (UserResponse 0%Z (TextPayload EmptyString))
    = UserResponse 1%Z (TextPayload "hello") /\
  length (fromInternal (state m2)) = 3 /\
  map BotMessage.text (botMessages (fromInternal (state m2)))
    = "Hi" :: defaultFailureMessages /\
  completion (currentConversationId m3) = Normal None /\
  length (fromInternal (state m3)) = 3.
Proof. cbv zeta. repeat split. Qed.

(** A reply offering [a] and [b], then [sendChoice("a")], then the unknown
    [sendChoice("z")]. *)
Example choice_then_unknown_choice :
  let m1 := run unaryConfig noPayload 0%Z [(1%Z, Settle (Resolved pickOne))] in
  let m2 := after (handle unaryConfig noPayload 2%Z (Call (CallSendChoice "a")) m1) in
  let m3 := after (handle unaryConfig noPayload 3%Z (Call (CallSendChoice "z")) m2) in
  selections (fromInternal (state m1)) = [None] /\
  selections (fromInternal (state m2)) = [Some "a"] /\
  selections (fromInternal (state m3)) = [Some "a"] /\
  length (fromInternal (state m3)) = 3.
Proof. cbv zeta. repeat split. Qed.

(** ** Choice selection *)

Lemma indexOf_ge (l : list string) (x : string) : (-1 <= indexOf l x)%Z.
Proof.
  induction l as [|y l IH]; cbn [indexOf]; [lia|].
  destruct (String.eqb y x); [lia|].
  destruct (indexOf l x); lia.
Qed.

Lemma indexOf_In (l : list string) (x : string) :
  (indexOf l x >? -1)%Z = true <-> In x l.
Proof.
  induction l as [|y l IH]; cbn [indexOf In].
  - split; [discriminate|tauto].
  - destruct (String.eqb_spec y x) as [->|Hne].
    + split; [tauto|reflexivity].
    + pose proof (indexOf_ge l x) as Hge.
      destruct (indexOf l x) as [|q|q] eqn:E.
      * split; [intros _; right; apply IH; reflexivity | reflexivity].
      * split; [intros _; right; apply IH; reflexivity | intros _; apply Z.gtb_lt; lia].
      * split.
        -- intros H. apply Z.gtb_lt in H. lia.
        -- intros [H|H]; [congruence|]. apply IH in H. apply Z.gtb_lt in H. lia.
Qed.

Lemma selectChoice_stamped (choiceId : string) (b : BotMessage.t) :
  stampedMessage choiceId b (selectChoice choiceId b).
Proof.
  unfold stampedMessage, offers, selectChoice. cbn.
  repeat split.
  - intros H. apply indexOf_In in H. rewrite H. reflexivity.
  - intros H.
    destruct (indexOf (map Choice.choiceId (BotMessage.choices b)) choiceId >? -1)%Z eqn:E.
    + apply indexOf_In in E. contradiction.
    + destruct b; reflexivity.
Qed.

Lemma selectChoiceIn_stamped (choiceId : string) (r : Response) :
  stampedResponse choiceId r (selectChoiceIn choiceId r).
Proof.
  destruct r as [t p|t u]; cbn; [|reflexivity].
  repeat split.
  induction (BotResponsePayload.messages p) as [|b l IH]; cbn; constructor;
    [apply selectChoice_stamped | exact IH].
Qed.

Lemma selectChoice_idempotent (choiceId : string) (b : BotMessage.t) :
  selectChoice choiceId (selectChoice choiceId b) = selectChoice choiceId b.
Proof.
  unfold selectChoice. cbn.
  destruct (indexOf (map Choice.choiceId (BotMessage.choices b)) choiceId >? -1)%Z;
    reflexivity.
Qed.

Lemma selectChoiceIn_idempotent (choiceId : string) (r : Response) :
  selectChoiceIn choiceId (selectChoiceIn choiceId r) = selectChoiceIn choiceId r.
Proof.
  destruct r as [t p|t u]; cbn; [|reflexivity].
  rewrite map_map.
  f_equal. f_equal. apply map_ext. intros b. apply selectChoice_idempotent.
Qed.

(** C1: [sendChoice(choiceId)] returns normally; the new timeline is the old
    one, entry by entry, with [selectedChoiceId] set to [choiceId] on the bot
    messages that offer the choice and every other message (and every other
    field) as it was, followed by one user turn [{type:"choice", choiceId}];
    the subscribers see that timeline before the one outbound call, whose
    request is the structured choice, is dispatched. *)
Theorem sendChoice_rewrites_appends_dispatches
    (config : Config.t) (now : Time) (choiceId : string) (m : Manager) :
  let r := sendChoice config now choiceId m in
  completion r = Normal tt /\
  exists rewritten body,
    InternalState.responses (state (after r))
      = rewritten ++ [UserResponse now (ChoicePayload choiceId)] /\
    Forall2 (stampedResponse choiceId) (InternalState.responses (state m)) rewritten /\
    trace r
      = map (fun f => Notify f (rewritten ++ [UserResponse now (ChoicePayload choiceId)]))
          (subscribers m)
        ++ [transport config body] /\
    dispatched [transport config body] = [body] /\
    BodyWithContext.request body
      = Structured {| StructuredRequest.choiceId := Some choiceId;
                      StructuredRequest.intentId := None;
                      StructuredRequest.slots := None |}.
Proof.
  intros r. subst r. rewrite sendChoice_eq. unfold completion, after, trace. cbn [fst snd].
  split; [reflexivity|].
  eexists. eexists. cbn [state]. rewrite contextMarked_responses. cbn.
  split; [reflexivity|]. split.
  - induction (InternalState.responses (state m)) as [|x l IH]; cbn; constructor;
      [apply selectChoiceIn_stamped | exact IH].
  - split; [reflexivity|]. split; [apply dispatched_transport | reflexivity].
Qed.

(** C9: a second [sendChoice(c)] right after the first changes no bot
    message: the timeline after both calls is the timeline after the first
    call followed by the second user choice turn, and the bot messages (with
    their stamps) are the same after one call and after two. *)
Theorem sendChoice_twice
    (config : Config.t) (now1 now2 : Time) (c : string) (m : Manager) :
  let once := after (sendChoice config now1 c m) in
  let twice := after (sendChoice config now2 c once) in
  InternalState.responses (state twice)
    = InternalState.responses (state once) ++ [UserResponse now2 (ChoicePayload c)] /\
  botMessages (InternalState.responses (state twice))
    = botMessages (InternalState.responses (state once)).
Proof.
  cbv zeta. rewrite !sendChoice_eq. unfold after. cbn [fst snd state].
  rewrite !contextMarked_responses. cbn [spread Partial.responses InternalState.responses].
  assert (E : map (selectChoiceIn c)
                (map (selectChoiceIn c) (InternalState.responses (state m)) ++
                 [UserResponse now1 (ChoicePayload c)])
              = map (selectChoiceIn c) (InternalState.responses (state m)) ++
                [UserResponse now1 (ChoicePayload c)]).
  { rewrite map_app, map_map. cbn. f_equal.
    apply map_ext. intros x. apply selectChoiceIn_idempotent. }
  rewrite E. split; [reflexivity|].
  unfold botMessages. rewrite !flat_map_app. cbn. rewrite !app_nil_r. reflexivity.
Qed.

(** ** Dispatch-only operations and [reset] *)

Lemma sendStructured_dispatchesOnly
    (config : Config.t) (structured : StructuredRequest.t) (m : Manager) :
  dispatchesOnly m (Structured structured) (sendStructured config structured m).
Proof.
  rewrite sendStructured_eq. unfold dispatchesOnly, completion, after, trace.
  cbn [fst snd state]. split; [reflexivity|]. split; [apply contextMarked_responses|].
  split.
  - unfold transport. destruct (isUsingWebSockets config); reflexivity.
  - eexists. split; [apply dispatched_transport | reflexivity].
Qed.

(** C6: [sendSlots], [sendIntent] and [sendStructured] return normally with
    the timeline exactly as it was, notify nobody, and put one call on the
    transport, carrying the structured request built from the argument. *)
Theorem structured_sends_leave_timeline (config : Config.t) (m : Manager) :
  (forall slots,
     dispatchesOnly m
       (Structured {| StructuredRequest.slots := Some slots;
                      StructuredRequest.choiceId := None;
                      StructuredRequest.intentId := None |})
       (sendSlots config slots m)) /\
  (forall intentId,
     dispatchesOnly m
       (Structured {| StructuredRequest.intentId := Some intentId;
                      StructuredRequest.choiceId := None;
                      StructuredRequest.slots := None |})
       (sendIntent config intentId m)) /\
  (forall structured,
     dispatchesOnly m (Structured structured) (sendStructured config structured m)).
Proof.
  split; [|split].
  - intros slots. rewrite sendSlots_eq. apply sendStructured_dispatchesOnly.
  - intros intentId. rewrite sendIntent_eq. apply sendStructured_dispatchesOnly.
  - intros structured. apply sendStructured_dispatchesOnly.
Qed.

(** C5: [reset()] returns normally and leaves [conversationId] undefined, so
    that [currentConversationId()] then returns [undefined]; the timeline,
    [userId], [contextSent] and the subscriber registry are as before. *)
Theorem reset_clears_conversationId_only (m : Manager) :
  let r := reset m in
  completion r = Normal tt /\
  InternalState.conversationId (state (after r)) = None /\
  completion (currentConversationId (after r)) = Normal None /\
  InternalState.responses (state (after r)) = InternalState.responses (state m) /\
  InternalState.userId (state (after r)) = InternalState.userId (state m) /\
  InternalState.contextSent (state (after r)) = InternalState.contextSent (state m) /\
  subscribers (after r) = subscribers m.
Proof.
  cbv zeta. unfold reset. rewrite setState_eq.
  unfold completion, after. cbn. repeat split; reflexivity.
Qed.

(** ** Settled calls *)

Lemma messageResposeHandler_payload (now : Time) (p : WirePayload.t) (m : Manager) :
  exists change,
    messageResposeHandler now (ReplyPayload p) m
      = (Normal tt, changed change m, notifications (changed change m)) /\
    Partial.conversationId change = Some (WirePayload.conversationId p) /\
    Partial.userId change = None /\
    Partial.contextSent change = None /\
    exists payload,
      Partial.responses change
        = Some (InternalState.responses (state m) ++ [BotResponse now payload]) /\
      BotResponsePayload.conversationId payload = WirePayload.conversationId p.
Proof.
  eexists. split.
  - unfold messageResposeHandler.
    rewrite (bind_normal getState _ m (state m) m []) by reflexivity.
    rewrite setState_eq. reflexivity.
  - cbn. repeat split. eexists. split; reflexivity.
Qed.

Lemma tryCatch_normal {A} (c : M A) (h : Exn -> M A) (m : Manager) a m1 t1 :
  c m = (Normal a, m1, t1) -> tryCatch c h m = (Normal a, m1, t1).
Proof. intros H. unfold tryCatch. rewrite H. reflexivity. Qed.

Lemma settled_resolved (config : Config.t) (now : Time) (response : Reply) (m : Manager) :
  settled config now (Resolved response) m = messageResposeHandler now response m.
Proof.
  cbn [settled]. destruct response as [| | |p].
  1-3: reflexivity.
  destruct (messageResposeHandler_payload now p m) as (change & E & _).
  rewrite E. apply tryCatch_normal. exact E.
Qed.

Lemma failureHandler_eq (config : Config.t) (now : Time) (m : Manager) :
  let change :=
    {| Partial.responses := Some (
         InternalState.responses (state m) ++
         [BotResponse now
            {| BotResponsePayload.conversationId := None;
               BotResponsePayload.messages :=
                 map (fun messageBody =>
                        {| BotMessage.messageId := None;
                           BotMessage.text := messageBody;
                           BotMessage.choices := [];
                           BotMessage.selectedChoiceId := None |})
                     (match Config.failureMessages config with
                      | Some l => l
                      | None => defaultFailureMessages
                      end);
               BotResponsePayload.metadata := None;
               BotResponsePayload.payload := None;
               BotResponsePayload.context := None |}]);
       Partial.conversationId := None;
       Partial.userId := None;
       Partial.contextSent := None |} in
  failureHandler config now m = (Normal tt, changed change m, notifications (changed change m)).
Proof.
  intros change. unfold failureHandler.
  rewrite (bind_normal getState _ m (state m) m []) by reflexivity.
  rewrite setState_eq. reflexivity.
Qed.

Lemma perform_returns (config : Config.t) (now : Time) (op : Operation) (m : Manager) :
  completion (perform config now op m) = Normal tt.
Proof.
  destruct op; cbn [perform].
  - rewrite sendText_eq. reflexivity.
  - rewrite sendSlots_eq, sendStructured_eq. reflexivity.
  - rewrite sendChoice_eq. reflexivity.
  - rewrite sendIntent_eq, sendStructured_eq. reflexivity.
  - rewrite sendStructured_eq. reflexivity.
  - reflexivity.
  - reflexivity.
  - reflexivity.
  - reflexivity.
  - unfold reset. rewrite setState_eq. reflexivity.
Qed.

(** C4: when an outbound call rejects, the failure handler returns normally
    and the timeline grows by exactly one bot turn, stamped with the time of
    the failure: its messages carry the configured [failureMessages] in order
    (the one built-in message when none are configured), each with no
    choices, no [messageId] and no selection, and its payload has no
    [conversationId]; the manager's [conversationId] is untouched. On the
    unary transport (the one whose calls can reject) every public operation
    itself returns normally. *)
Theorem rejected_call_appends_failure_turn
    (config : Config.t) (now : Time) (m : Manager) :
  let r := settled config now Rejected m in
  completion r = Normal tt /\
  (exists payload,
     InternalState.responses (state (after r))
       = InternalState.responses (state m) ++ [BotResponse now payload] /\
     match Config.failureMessages config with
     | Some configured =>
         map BotMessage.text (BotResponsePayload.messages payload) = configured
     | None =>
         exists builtin,
           defaultFailureMessages = [builtin] /\
           map BotMessage.text (BotResponsePayload.messages payload) = [builtin]
     end /\
     Forall (fun b => BotMessage.choices b = [] /\
                      BotMessage.messageId b = None /\
                      BotMessage.selectedChoiceId b = None)
       (BotResponsePayload.messages payload) /\
     BotResponsePayload.conversationId payload = None) /\
  InternalState.conversationId (state (after r)) = InternalState.conversationId (state m) /\
  (forall now' op m',
     if isUsingWebSockets config then True
     else completion (perform config now' op m') = Normal tt).
Proof.
  cbv zeta. cbn [settled]. rewrite failureHandler_eq.
  unfold completion, after. cbn [fst snd changed state spread Partial.responses
    Partial.conversationId InternalState.responses InternalState.conversationId].
  split; [reflexivity|]. split; [|split; [reflexivity|]].
  - eexists. split; [reflexivity|].
    cbn [BotResponsePayload.messages BotResponsePayload.conversationId].
    split; [|split; [|reflexivity]].
    + rewrite map_map. cbn [BotMessage.text].
      destruct (Config.failureMessages config) as [l|].
      * apply map_id.
      * eexists. split; reflexivity.
    + apply Forall_map. apply Forall_forall. intros x _. cbn. repeat split.
  - intros now' op m'. destruct (isUsingWebSockets config); [exact I|].
    apply perform_returns.
Qed.

(** C10: a call that resolves with [null] or [undefined] is discarded just as
    the pending sentinel is: the handler returns normally, the manager
    (timeline, [conversationId], registry) is the same, and there is no
    effect at all, so no subscriber is notified and no failure turn is
    made. *)
Theorem falsy_reply_is_discarded (config : Config.t) (now : Time) (m : Manager) :
  settled config now (Resolved ReplyNull) m = (Normal tt, m, []) /\
  settled config now (Resolved ReplyUndefined) m = (Normal tt, m, []) /\
  settled config now (Resolved ReplyNull) m = settled config now (Resolved ReplyPending) m /\
  settled config now (Resolved ReplyUndefined) m = settled config now (Resolved ReplyPending) m.
Proof. repeat split. Qed.

(** ** The subscriber registry *)

Lemma filter_other_remove (f : Subscriber) (l : list Subscriber) :
  List.filter (fun fn => negb (Nat.eqb fn f)) l = List.remove Nat.eq_dec f l.
Proof.
  induction l as [|g l IH]; [reflexivity|].
  cbn [List.filter List.remove]. rewrite IH.
  destruct (Nat.eq_dec f g) as [->|Hne].
  - rewrite Nat.eqb_refl. reflexivity.
  - destruct (Nat.eqb_spec g f) as [->|_]; [contradiction|reflexivity].
Qed.

Lemma remove_length_count (f : Subscriber) (l : list Subscriber) :
  length (List.remove Nat.eq_dec f l) + List.count_occ Nat.eq_dec l f = length l.
Proof.
  induction l as [|g l IH]; [reflexivity|].
  cbn [List.remove List.count_occ length].
  destruct (Nat.eq_dec f g) as [->|Hne].
  - destruct (Nat.eq_dec g g); [lia|contradiction].
  - destruct (Nat.eq_dec g f) as [->|_]; [contradiction|]. cbn [length]. lia.
Qed.

Lemma unsubscribe_eq (f : Subscriber) (m : Manager) :
  unsubscribe f m
  = (Normal tt,
     {| state := state m; subscribers := List.remove Nat.eq_dec f (subscribers m) |},
     []).
Proof. rewrite <- filter_other_remove. reflexivity. Qed.

Lemma subscribe_eq (f : Subscriber) (m : Manager) :
  subscribe f m
  = (Normal tt,
     {| state := state m; subscribers := subscribers m ++ [f] |},
     [Notify f (fromInternal (state m))]).
Proof. reflexivity. Qed.

(** C8, as the code has it: [unsubscribe(fn)] returns normally, touches
    neither the state nor any subscriber, and removes every registration of
    [fn] (as many as [fn] was subscribed, one when it was subscribed once),
    keeping the others in order; subscribing [fn] again puts it at the end of
    the registry, so it is the last to be notified. *)
Theorem unsubscribe_removes_every_registration (subscriber : Subscriber) (m : Manager) :
  let r := unsubscribe subscriber m in
  let again := after (subscribe subscriber (after r)) in
  completion r = Normal tt /\
  trace r = [] /\
  state (after r) = state m /\
  subscribers (after r) = List.remove Nat.eq_dec subscriber (subscribers m) /\
  ~ In subscriber (subscribers (after r)) /\
  length (subscribers (after r)) + List.count_occ Nat.eq_dec (subscribers m) subscriber
    = length (subscribers m) /\
  subscribers again = subscribers (after r) ++ [subscriber] /\
  notifications again
    = notifications (after r) ++ [Notify subscriber (fromInternal (state m))].
Proof.
  cbv zeta. rewrite unsubscribe_eq. unfold after, completion, trace.
  cbn [fst snd]. rewrite subscribe_eq. cbn [fst snd state subscribers].
  repeat split.
  - apply List.remove_In.
  - apply remove_length_count.
  - unfold notifications. cbn [state subscribers]. rewrite map_app. reflexivity.
Qed.

(** C8, counterexample: after [subscribe(f); subscribe(f)] the function is
    registered twice, and one [unsubscribe(f)] removes both registrations. *)
Lemma unsubscribe_removes_two_registrations :
  let m := after (subscribe 7 (after (subscribe 7 (after (createConversation unaryConfig 0%Z))))) in
  subscribers m = [7; 7] /\
  subscribers (after (unsubscribe 7 m)) = [] /\
  length (subscribers (after (unsubscribe 7 m))) + 1 <> length (subscribers m).
Proof. cbv zeta. split; [reflexivity|]. split; [reflexivity|]. vm_compute. discriminate. Qed.

(** ** Malformed frames on the streaming transport *)

(** C7, as the code has it: a text frame that is not well-formed JSON makes
    [JSON.parse] throw; the handler has no [try], so the [SyntaxError]
    leaves it, before the response handler is reached: the manager is the
    same and there is no effect, so no timeline entry and no notification. *)
Theorem malformed_frame_throws_and_changes_nothing
    (decode : string -> Reply) (now : Time) (text : string) (m : Manager) :
  JSONText.wellFormed text = false ->
  onmessage decode now (DataString text) m = (Throw SyntaxError, m, []).
Proof.
  intros H. unfold onmessage, JSON_parse, mbind, M_bind, bind. rewrite H. reflexivity.
Qed.

Lemma malformed_frame_throws_and_changes_nothing_witness :
  JSONText.wellFormed "{" = false /\
  onmessage noPayload 5%Z (DataString "{") (after (createConversation socketConfig 0%Z))
    = (Throw SyntaxError, after (createConversation socketConfig 0%Z), []).
Proof.
  split; [reflexivity|].
  apply (malformed_frame_throws_and_changes_nothing noPayload 5%Z "{"
           (after (createConversation socketConfig 0%Z))).
  reflexivity.
Defined.

(** C7, counterexample: on the streaming transport the frame ["{"] is not
    dropped silently: the socket handler ends with a [SyntaxError]. *)
Lemma malformed_frame_exception_escapes :
  JSONText.wellFormed "{" = false /\
  completion (handle socketConfig noPayload 5%Z (SocketMessage (DataString "{"))
                (after (createConversation socketConfig 0%Z)))
    = Throw SyntaxError /\
  completion (handle socketConfig noPayload 5%Z (SocketMessage (DataString "{"))
                (after (createConversation socketConfig 0%Z)))
    <> Normal tt.
Proof. split; [reflexivity|]. split; [reflexivity|]. discriminate. Qed.

(** ** One event at a time *)

Lemma onmessage_eq (decode : string -> Reply) (now : Time) (text : string) (m : Manager) :
  onmessage decode now (DataString text) m
  = if JSONText.wellFormed text
    then messageResposeHandler now (decode text) m
    else (Throw SyntaxError, m, []).
Proof.
  unfold onmessage, JSON_parse. destruct (JSONText.wellFormed text).
  - rewrite (bind_normal _ _ m (decode text) m []) by reflexivity.
    destruct (messageResposeHandler now (decode text) m) as [[c m'] t]. reflexivity.
  - reflexivity.
Qed.

Lemma dispatched_notifications (m : Manager) : dispatched (notifications m) = [].
Proof.
  unfold notifications. induction (subscribers m) as [|f l IH]; [reflexivity|exact IH].
Qed.

Lemma dispatched_app (t1 t2 : list Effect) :
  dispatched (t1 ++ t2) = dispatched t1 ++ dispatched t2.
Proof. apply flat_map_app. Qed.

Lemma bodyWithContext_context (config : Config.t) (s : InternalState.t) (body : Body.t) :
  BodyWithContext.context (bodyWithContext config s body)
  = if InternalState.contextSent s then None else Config.context config.
Proof.
  unfold bodyWithContext. cbn.
  destruct (Config.context config), (InternalState.contextSent s); reflexivity.
Qed.

Lemma handshake_quiet (config : Config.t) (change : Partial.t) (m : Manager) {A} (a : A) :
  Partial.contextSent change = None ->
  handshakeStep config m (Normal a, changed change m, notifications (changed change m)).
Proof.
  intros H. left. unfold trace, after. cbn [fst snd]. split.
  - apply dispatched_notifications.
  - cbn. rewrite H. reflexivity.
Qed.

Lemma handshake_send (config : Config.t) (m : Manager) (s : InternalState.t)
    (pre : list Effect) (body : Body.t) {A} (a : A) :
  dispatched pre = [] ->
  InternalState.contextSent s = InternalState.contextSent (state m) ->
  handshakeStep config m
    (Normal a, {| state := contextMarked s; subscribers := subscribers m |},
     pre ++ [transport config (bodyWithContext config s body)]).
Proof.
  intros Hpre Hs. right. unfold trace, after. cbn [fst snd state].
  eexists. rewrite dispatched_app, Hpre, dispatched_transport. split; [reflexivity|].
  rewrite bodyWithContext_context, Hs. split; [reflexivity|].
  apply contextMarked_contextSent.
Qed.

Lemma messageResposeHandler_handshake
    (config : Config.t) (now : Time) (response : Reply) (m : Manager) :
  handshakeStep config m (messageResposeHandler now response m).
Proof.
  destruct response as [| | |p].
  1-3: left; split; reflexivity.
  destruct (messageResposeHandler_payload now p m) as (change & E & _ & _ & Hc & _).
  rewrite E. apply handshake_quiet. exact Hc.
Qed.

Lemma handle_handshake (config : Config.t) (decode : string -> Reply)
    (now : Time) (ev : Event) (m : Manager) :
  handshakeStep config m (handle config decode now ev m).
Proof.
  destruct ev as [op|o|data]; cbn [handle].
  - destruct op; cbn [perform].
    + rewrite sendText_eq. apply handshake_send; [apply dispatched_notifications|reflexivity].
    + rewrite sendSlots_eq, sendStructured_eq. apply (handshake_send config m _ []); reflexivity.
    + rewrite sendChoice_eq. apply handshake_send; [apply dispatched_notifications|reflexivity].
    + rewrite sendIntent_eq, sendStructured_eq. apply (handshake_send config m _ []); reflexivity.
    + rewrite sendStructured_eq. apply (handshake_send config m _ []); reflexivity.
    + left. split; reflexivity.
    + left. split; reflexivity.
    + left. split; reflexivity.
    + left. split; reflexivity.
    + unfold reset. rewrite setState_eq. apply handshake_quiet. reflexivity.
  - destruct o as [response|].
    + rewrite settled_resolved. apply messageResposeHandler_handshake.
    + cbn [settled]. rewrite failureHandler_eq. apply handshake_quiet. reflexivity.
  - destruct (isUsingWebSockets config); [|left; split; reflexivity].
    destruct data as [text|]; [|left; split; reflexivity].
    rewrite onmessage_eq. destruct (JSONText.wellFormed text).
    + apply messageResposeHandler_handshake.
    + left. split; reflexivity.
Qed.

Lemma createConversation_handshake (config : Config.t) (now0 : Time) :
  handshakeStep config {| state := initialState config now0; subscribers := [] |}
    (createConversation config now0).
Proof.
  unfold createConversation.
  set (m0 := {| state := initialState config now0; subscribers := [] |}).
  assert (Hopen : exists pre,
             dispatched pre = [] /\
             (if isUsingWebSockets config
              then emit (SocketOpen (Config.botUrl config)) else ret tt) m0
             = (Normal tt, m0, pre)).
  { destruct (isUsingWebSockets config); eexists; (split; [|reflexivity]); reflexivity. }
  destruct Hopen as (pre & Hpre & Hopen).
  erewrite bind_normal by exact Hopen.
  destruct (Config.triggerWelcomeIntent config) as [[|]|].
  - rewrite sendIntent_eq, sendStructured_eq.
    apply (handshake_send config m0 (state m0) pre); [exact Hpre|reflexivity].
  - left. unfold trace, after. cbn. rewrite app_nil_r. split; [exact Hpre|reflexivity].
  - left. unfold trace, after. cbn. rewrite app_nil_r. split; [exact Hpre|reflexivity].
Qed.

(** ** The context handshake over a lifetime *)

Lemma flips_cons (b b' : bool) (history : list bool) :
  flips (b :: b' :: history) = (if negb b && b' then 1 else 0) + flips (b' :: history).
Proof. reflexivity. Qed.

Lemma flips_all_true (b : bool) (history : list bool) :
  Forall (fun x => x = true) history ->
  flips (true :: history) = 0 /\ flips (b :: history) <= 1.
Proof.
  intros H. revert b. induction H as [|x l Hx Hl IH]; intros b.
  - split; cbn; lia.
  - subst x. destruct (IH true) as [E _]. rewrite !flips_cons, E.
    destruct b; cbn [negb andb]; lia.
Qed.

Section Lifetime.

Variable config : Config.t.
Variable decode : string -> Reply.

Lemma after_context_sent (evs : list (Time * Event)) (m : Manager) :
  InternalState.contextSent (state m) = true ->
  Forall (fun b => BodyWithContext.context b = None)
    (dispatched (traceFrom config decode evs m)) /\
  Forall (fun x => x = true)
    (map (fun m' => InternalState.contextSent (state m')) (statesFrom config decode evs m)).
Proof.
  revert m. induction evs as [|[now ev] evs IH]; intros m Hm; [split; constructor|].
  cbn [traceFrom statesFrom map]. rewrite dispatched_app.
  destruct (handle_handshake config decode now ev m) as [[Hd Hs]|(body & Hd & Hb & Hs)].
  - rewrite Hm in Hs. destruct (IH _ Hs) as [IH1 IH2].
    rewrite Hd. split; [exact IH1|]. constructor; [exact Hs|exact IH2].
  - rewrite Hm in Hb. destruct (IH _ Hs) as [IH1 IH2].
    rewrite Hd. split; [constructor; [exact Hb|exact IH1]|]. constructor; [exact Hs|exact IH2].
Qed.

Lemma before_context_sent (evs : list (Time * Event)) (m : Manager) :
  InternalState.contextSent (state m) = false ->
  contextOnFirstOnly (Config.context config) (dispatched (traceFrom config decode evs m)) /\
  flips (false ::
         map (fun m' => InternalState.contextSent (state m'))
           (statesFrom config decode evs m)) <= 1.
Proof.
  revert m. induction evs as [|[now ev] evs IH]; intros m Hm; [split; cbn; [exact I|lia]|].
  cbn [traceFrom statesFrom map]. rewrite dispatched_app.
  destruct (handle_handshake config decode now ev m) as [[Hd Hs]|(body & Hd & Hb & Hs)].
  - rewrite Hm in Hs. destruct (IH _ Hs) as [IH1 IH2].
    rewrite Hd, Hs. split; [exact IH1|].
    rewrite flips_cons. cbn [negb andb]. lia.
  - rewrite Hm in Hb.
    destruct (after_context_sent evs _ Hs) as [H1 H2].
    rewrite Hd, Hs. split.
    + cbn. split; [exact Hb|exact H1].
    + destruct (flips_all_true true _ H2) as [E _].
      rewrite flips_cons, E. cbn [negb andb]. lia.
Qed.

Lemma lifetime_handshake (now0 : Time) (evs : list (Time * Event)) :
  contextOnFirstOnly (Config.context config)
    (dispatched (runTrace config decode now0 evs)) /\
  flips (contextSentHistory config decode now0 evs) <= 1.
Proof.
  unfold runTrace, contextSentHistory. rewrite dispatched_app.
  change (InternalState.contextSent (initialState config now0)) with false.
  cbn [map].
  destruct (createConversation_handshake config now0) as [[Hd Hs]|(body & Hd & Hb & Hs)];
    cbn [state InternalState.contextSent initialState] in *.
  - destruct (before_context_sent evs _ Hs) as [H1 H2].
    rewrite Hd, Hs. split; [exact H1|].
    rewrite flips_cons. cbn [negb andb]. lia.
  - destruct (after_context_sent evs _ Hs) as [H1 H2].
    rewrite Hd, Hs. split.
    + cbn. split; [exact Hb|exact H1].
    + destruct (flips_all_true true _ H2) as [E _].
      rewrite flips_cons, E. cbn [negb andb]. lia.
Qed.

End Lifetime.

(** C3: for a manager configured with a context map, over construction and
    any sequence of events (calls of the public operations, outbound calls
    that resolve or reject, socket frames): [contextSent] goes from false to
    true at most once, and of the bodies put on the transport the first one
    carries the configured context and no later one does, whether or not the
    first call failed. *)
Theorem context_sent_once
    (config : Config.t) (decode : string -> Reply) (context : Dict)
    (now0 : Time) (evs : list (Time * Event)) :
  Config.context config = Some context ->
  flips (contextSentHistory config decode now0 evs) <= 1 /\
  match dispatched (runTrace config decode now0 evs) with
  | [] => True
  | first :: later =>
      BodyWithContext.context first = Some context /\
      Forall (fun b => BodyWithContext.context b = None) later
  end.
Proof.
  intros H. destruct (lifetime_handshake config decode now0 evs) as [H1 H2].
  split; [exact H2|]. unfold contextOnFirstOnly in H1. rewrite H in H1. exact H1.
Qed.

Lemma context_sent_once_witness :
  Config.context contextConfig = Some {[ "plan" := JString "pro" ]} /\
  (flips (contextSentHistory contextConfig noPayload 0%Z rejectedThenRetried) <= 1 /\
   match dispatched (runTrace contextConfig noPayload 0%Z rejectedThenRetried) with
   | [] => True
   | first :: later =>
       BodyWithContext.context first = Some {[ "plan" := JString "pro" ]} /\
       Forall (fun b => BodyWithContext.context b = None) later
   end).
Proof.
  split; [reflexivity|].
  apply (context_sent_once contextConfig noPayload {[ "plan" := JString "pro" ]}
           0%Z rejectedThenRetried).
  reflexivity.
Defined.

Example context_only_on_first_call :
  map BodyWithContext.context
    (dispatched (runTrace contextConfig noPayload 0%Z rejectedThenRetried))
  = [Some {[ "plan" := JString "pro" ]}; None] /\
  contextSentHistory contextConfig noPayload 0%Z rejectedThenRetried
  = [false; false; true; true; true; true].
Proof. split; vm_compute; reflexivity. Qed.

(** ** The flow of conversation ids *)

Lemma handle_conversationId (config : Config.t) (decode : string -> Reply)
    (now : Time) (ev : Event) (m : Manager) :
  InternalState.conversationId (state (after (handle config decode now ev m)))
  = conversationIdAfter config decode (InternalState.conversationId (state m)) ev.
Proof.
  assert (Hh : forall response,
             InternalState.conversationId (state (after (messageResposeHandler now response m)))
             = match response with
               | ReplyPayload p => WirePayload.conversationId p
               | _ => InternalState.conversationId (state m)
               end).
  { intros [| | |p]; try reflexivity.
    destruct (messageResposeHandler_payload now p m) as (change & E & Hc & _).
    rewrite E. unfold after. cbn. rewrite Hc. reflexivity. }
  destruct ev as [op|o|data]; cbn [handle].
  - destruct op; cbn [perform conversationIdAfter delivered].
    + rewrite sendText_eq. unfold after. cbn [fst snd state].
      rewrite contextMarked_conversationId. reflexivity.
    + rewrite sendSlots_eq, sendStructured_eq. apply contextMarked_conversationId.
    + rewrite sendChoice_eq. unfold after. cbn [fst snd state].
      rewrite contextMarked_conversationId. reflexivity.
    + rewrite sendIntent_eq, sendStructured_eq. apply contextMarked_conversationId.
    + rewrite sendStructured_eq. apply contextMarked_conversationId.
    + reflexivity.
    + reflexivity.
    + reflexivity.
    + reflexivity.
    + unfold reset. rewrite setState_eq. reflexivity.
  - destruct o as [response|].
    + rewrite settled_resolved, Hh. destruct response; reflexivity.
    + cbn [settled]. rewrite failureHandler_eq. reflexivity.
  - unfold conversationIdAfter, delivered.
    destruct data as [text|]; [|destruct (isUsingWebSockets config); reflexivity].
    destruct (isUsingWebSockets config); [|reflexivity].
    rewrite onmessage_eq. cbn [andb].
    destruct (JSONText.wellFormed text); [|reflexivity].
    rewrite Hh. destruct (decode text); reflexivity.
Qed.

Lemma runFrom_conversationId (config : Config.t) (decode : string -> Reply)
    (evs : list (Time * Event)) (m : Manager) :
  InternalState.conversationId (state (runFrom config decode evs m))
  = fold_left (conversationIdAfter config decode) (map snd evs)
      (InternalState.conversationId (state m)).
Proof.
  revert m. induction evs as [|[now ev] evs IH]; intros m; [reflexivity|].
  cbn [runFrom map fold_left snd]. rewrite IH, handle_conversationId. reflexivity.
Qed.

Lemma createConversation_conversationId (config : Config.t) (now0 : Time) :
  InternalState.conversationId (state (after (createConversation config now0))) = None.
Proof.
  unfold createConversation.
  set (m0 := {| state := initialState config now0; subscribers := [] |}).
  assert (Hopen : exists pre,
             (if isUsingWebSockets config
              then emit (SocketOpen (Config.botUrl config)) else ret tt) m0
             = (Normal tt, m0, pre)).
  { destruct (isUsingWebSockets config); eexists; reflexivity. }
  destruct Hopen as (pre & Hopen).
  erewrite bind_normal by exact Hopen.
  destruct (Config.triggerWelcomeIntent config) as [[|]|]; try reflexivity.
  rewrite sendIntent_eq, sendStructured_eq. cbn [after fst snd state].
  apply contextMarked_conversationId.
Qed.

(** C2, as the code has it: over construction and any sequence of events the
    conversation id is the one obtained by starting from [undefined] and
    following the events: [reset()] clears it, every payload delivered to the
    response handler (the first one and each later one) replaces it by the
    payload's own [conversationId], and no other event (a send, a rejected
    call, a discarded reply, a subscription) changes it. *)
Theorem conversationId_follows_replies_and_resets
    (config : Config.t) (decode : string -> Reply)
    (now0 : Time) (evs : list (Time * Event)) :
  InternalState.conversationId (state (run config decode now0 evs))
  = fold_left (conversationIdAfter config decode) (map snd evs) None.
Proof.
  unfold run. rewrite runFrom_conversationId, createConversation_conversationId.
  reflexivity.
Qed.

(** C2, counterexample: with no [reset()] anywhere, the id set by the first
    reply is replaced by the id of the second reply. *)
Lemma later_reply_replaces_conversationId :
  InternalState.conversationId (state (run unaryConfig noPayload 0%Z firstExchange))
    = Some "c1" /\
  InternalState.conversationId
    (state (run unaryConfig noPayload 0%Z (firstExchange ++ secondExchange)))
    = Some "c2" /\
  Forall (fun e => snd e <> Call CallReset) (firstExchange ++ secondExchange).
Proof.
  split; [reflexivity|]. split; [reflexivity|].
  repeat constructor; discriminate.
Qed.

(** ** Every event, spelled out *)

Lemma state_eta (s : InternalState.t) :
  {| InternalState.responses := InternalState.responses s;
     InternalState.conversationId := InternalState.conversationId s;
     InternalState.userId := InternalState.userId s;
     InternalState.contextSent := InternalState.contextSent s |} = s.
Proof. destruct s; reflexivity. Qed.

Lemma contextMarked_eq (s : InternalState.t) :
  contextMarked s
  = {| InternalState.responses := InternalState.responses s;
       InternalState.conversationId := InternalState.conversationId s;
       InternalState.userId := InternalState.userId s;
       InternalState.contextSent := true |}.
Proof. destruct s as [rs cid uid [|]]; reflexivity. Qed.

Lemma messageResposeHandler_eq (now : Time) (p : WirePayload.t) (m : Manager) :
  let m' :=
    {| state :=
         {| InternalState.responses :=
              InternalState.responses (state m) ++ [BotResponse now (replyPayload p)];
            InternalState.conversationId := WirePayload.conversationId p;
            InternalState.userId := InternalState.userId (state m);
            InternalState.contextSent := InternalState.contextSent (state m) |};
       subscribers := subscribers m |} in
  messageResposeHandler now (ReplyPayload p) m = (Normal tt, m', notifications m').
Proof.
  cbv zeta. unfold messageResposeHandler.
  rewrite (bind_normal getState _ m (state m) m []) by reflexivity.
  rewrite setState_eq. reflexivity.
Qed.

Lemma handle_spec (config : Config.t) (decode : string -> Reply)
    (now : Time) (ev : Event) (m : Manager) :
  let r := handle config decode now ev m in
  state (after r) = stateAfter config decode now ev (state m) /\
  subscribers (after r) = registryAfter (subscribers m) ev /\
  trace r = effectsOf config decode now ev m /\
  completion r = if malformed config ev then Throw SyntaxError else Normal tt.
Proof.
  cbv zeta.
  assert (Hreply : forall response,
    let r := messageResposeHandler now response m in
    state (after r)
      = match response with
        | ReplyPayload p =>
            {| InternalState.responses :=
                 InternalState.responses (state m) ++ [BotResponse now (replyPayload p)];
               InternalState.conversationId := WirePayload.conversationId p;
               InternalState.userId := InternalState.userId (state m);
               InternalState.contextSent := InternalState.contextSent (state m) |}
        | _ => state m
        end /\
    subscribers (after r) = subscribers m /\
    trace r
      = match response with
        | ReplyPayload p =>
            map (fun f => Notify f
                   (InternalState.responses (state m) ++ [BotResponse now (replyPayload p)]))
              (subscribers m)
        | _ => []
        end /\
    completion r = Normal tt).
  { intros [| | |p]; cbv zeta; try (repeat split; reflexivity).
    rewrite messageResposeHandler_eq. solve [repeat split; reflexivity]. }
  destruct ev as [op|o|data]; cbn [handle].
  - destruct op; cbn [perform].
    + rewrite sendText_eq. unfold after, trace, completion. cbn [fst snd state subscribers].
      rewrite contextMarked_eq. solve [repeat split; reflexivity].
    + rewrite sendSlots_eq, sendStructured_eq. unfold after, trace, completion.
      cbn [fst snd state subscribers]. rewrite contextMarked_eq.
      unfold stateAfter. cbn. rewrite app_nil_r. solve [repeat split; reflexivity].
    + rewrite sendChoice_eq. unfold after, trace, completion. cbn [fst snd state subscribers].
      rewrite contextMarked_eq. solve [repeat split; reflexivity].
    + rewrite sendIntent_eq, sendStructured_eq. unfold after, trace, completion.
      cbn [fst snd state subscribers]. rewrite contextMarked_eq.
      unfold stateAfter. cbn. rewrite app_nil_r. solve [repeat split; reflexivity].
    + rewrite sendStructured_eq. unfold after, trace, completion.
      cbn [fst snd state subscribers]. rewrite contextMarked_eq.
      unfold stateAfter. cbn. rewrite app_nil_r. solve [repeat split; reflexivity].
    + rewrite subscribe_eq. unfold stateAfter. cbn. rewrite app_nil_r, state_eta.
      solve [repeat split; reflexivity].
    + rewrite unsubscribe_eq. unfold stateAfter. cbn. rewrite app_nil_r, state_eta.
      solve [repeat split; reflexivity].
    + unfold stateAfter. cbn. rewrite app_nil_r, state_eta. solve [repeat split; reflexivity].
    + unfold stateAfter. cbn. rewrite app_nil_r, state_eta. solve [repeat split; reflexivity].
    + unfold reset. rewrite setState_eq. unfold stateAfter, effectsOf, notifications.
      cbn. rewrite !app_nil_r. solve [repeat split; reflexivity].
  - destruct o as [response|].
    + rewrite settled_resolved.
      destruct (Hreply response) as (H1 & H2 & H3 & H4).
      rewrite H1, H2, H3, H4.
      destruct response; unfold stateAfter, effectsOf; cbn;
        rewrite ?app_nil_r, ?state_eta; solve [repeat split; reflexivity].
    + cbn [settled]. rewrite failureHandler_eq.
      unfold stateAfter, effectsOf, notifications. cbn. rewrite !app_nil_r. solve [repeat split; reflexivity].
  - unfold effectsOf, stateAfter, publishes, entryOf, appends, conversationIdAfter,
      delivered, malformed, registryAfter, requestOf, rewriteAll.
    destruct data as [text|].
    2:{ destruct (isUsingWebSockets config); cbn; rewrite !app_nil_r, state_eta;
        solve [repeat split; reflexivity]. }
    destruct (isUsingWebSockets config); cbn [andb negb].
    2:{ cbn. rewrite !app_nil_r, state_eta. solve [repeat split; reflexivity]. }
    rewrite onmessage_eq. destruct (JSONText.wellFormed text); cbn [negb].
    2:{ cbn. rewrite !app_nil_r, state_eta. solve [repeat split; reflexivity]. }
    destruct (Hreply (decode text)) as (H1 & H2 & H3 & H4).
    rewrite H1, H2, H3, H4.
    destruct (decode text); cbn; rewrite ?app_nil_r, ?state_eta; solve [repeat split; reflexivity].
Qed.

Lemma createConversation_spec (config : Config.t) (now0 : Time) :
  let init := initialState config now0 in
  createConversation config now0
  = (Normal tt,
     {| state := match Config.triggerWelcomeIntent config with
                 | Some true => contextMarked init
                 | _ => init
                 end;
        subscribers := [] |},
     (if isUsingWebSockets config then [SocketOpen (Config.botUrl config)] else []) ++
     match Config.triggerWelcomeIntent config with
     | Some true =>
         [transport config
            (bodyWithContext config init
               {| Body.userId := InternalState.userId init;
                  Body.conversationId := InternalState.conversationId init;
                  Body.request := Structured
                    {| StructuredRequest.intentId := Some "NLX.Welcome";
                       StructuredRequest.choiceId := None;
                       StructuredRequest.slots := None |} |})]
     | _ => []
     end).
Proof.
  cbv zeta. unfold createConversation.
  set (m0 := {| state := initialState config now0; subscribers := [] |}).
  assert (Hopen :
    (if isUsingWebSockets config
     then emit (SocketOpen (Config.botUrl config)) else ret tt) m0
    = (Normal tt, m0,
       if isUsingWebSockets config then [SocketOpen (Config.botUrl config)] else [])).
  { destruct (isUsingWebSockets config); reflexivity. }
  erewrite bind_normal by exact Hopen.
  destruct (Config.triggerWelcomeIntent config) as [[|]|].
  - rewrite sendIntent_eq, sendStructured_eq. reflexivity.
  - cbn. reflexivity.
  - cbn. reflexivity.
Qed.

Lemma runFrom_app (config : Config.t) (decode : string -> Reply)
    (evs1 evs2 : list (Time * Event)) (m : Manager) :
  runFrom config decode (evs1 ++ evs2) m
  = runFrom config decode evs2 (runFrom config decode evs1 m).
Proof.
  revert m. induction evs1 as [|[now ev] evs1 IH]; intros m; [reflexivity|].
  cbn [app runFrom]. apply IH.
Qed.

Lemma isNotify_transport (config : Config.t) (b : BodyWithContext.t) :
  isNotify (transport config b) = false.
Proof. unfold transport. destruct (isUsingWebSockets config); reflexivity. Qed.

Lemma filter_isNotify_map (snapshot : State) (subs : list Subscriber) :
  List.filter isNotify (map (fun f => Notify f snapshot) subs)
  = map (fun f => Notify f snapshot) subs.
Proof. induction subs as [|f l IH]; [reflexivity|]. cbn. rewrite IH. reflexivity. Qed.

Lemma entryOf_appends (config : Config.t) (decode : string -> Reply)
    (now : Time) (ev : Event) :
  length (match entryOf config decode now ev with
          | Some r => [r]
          | None => []
          end)
  = if appends config decode ev then 1 else 0.
Proof.
  destruct ev as [op|[response|]|data]; cbn [entryOf appends].
  - destruct op; reflexivity.
  - destruct (delivered config decode (Settle (Resolved response))); reflexivity.
  - reflexivity.
  - destruct (delivered config decode (SocketMessage data)); reflexivity.
Qed.

Lemma rewriteAll_length (ev : Event) (l : list Response) :
  length (rewriteAll ev l) = length l.
Proof.
  destruct ev as [op| |]; try reflexivity.
  destruct op; try reflexivity. cbn. apply length_map.
Qed.


(** ** [sendText] *)


(** ** Subscribers and snapshots *)

(** Who is called, and with what: [subscribe(fn)] calls [fn] alone, once,
    with the timeline of the moment; an event that goes through [setState]
    (a text, a choice, a delivered payload, a rejected call, a reset) calls
    every registered subscriber once, in registration order, with the
    timeline as that event leaves it; no other event calls anyone. *)
Theorem subscribers_see_every_new_timeline
    (config : Config.t) (decode : string -> Reply)
    (now : Time) (ev : Event) (m : Manager) :
  let r := handle config decode now ev m in
  List.filter isNotify (trace r)
  = match ev with
    | Call (CallSubscribe f) => [Notify f (fromInternal (state m))]
    | _ =>
        if publishes config decode ev
        then map (fun f => Notify f (fromInternal (state (after r)))) (subscribers m)
        else []
    end.
Proof.
  cbv zeta. destruct (handle_spec config decode now ev m) as (Hs & _ & Ht & _).
  rewrite Ht, Hs. unfold effectsOf.
  assert (G : forall pre request,
            List.filter isNotify
              (pre ++ match request with
                      | Some rq =>
                          [transport config
                             (bodyWithContext config (state m)
                                {| Body.userId := InternalState.userId (state m);
                                   Body.conversationId :=
                                     InternalState.conversationId (state m);
                                   Body.request := rq |})]
                      | None => []
                      end)
            = List.filter isNotify pre).
  { intros pre [rq|]; rewrite List.filter_app; cbn [List.filter];
      rewrite ?isNotify_transport; apply app_nil_r. }
  destruct ev as [op|o|data].
  - destruct op; try (rewrite G; destruct (publishes config decode _);
                      [apply filter_isNotify_map|reflexivity]).
    reflexivity.
  - rewrite G. destruct (publishes config decode _);
      [apply filter_isNotify_map|reflexivity].
  - rewrite G. destruct (publishes config decode _);
      [apply filter_isNotify_map|reflexivity].
Qed.

(** The registry changes by [subscribe] (one more registration, at the end),
    [unsubscribe] (every registration of the function goes) and
    [unsubscribeAll] (empty) only: a send, a settled call or a socket frame,
    even a malformed one, leaves it as it is. *)
Theorem registry_changes_only_by_subscription
    (config : Config.t) (decode : string -> Reply)
    (now : Time) (ev : Event) (m : Manager) :
  subscribers (after (handle config decode now ev m))
  = match ev with
    | Call (CallSubscribe f) => subscribers m ++ [f]
    | Call (CallUnsubscribe f) => List.remove Nat.eq_dec f (subscribers m)
    | Call CallUnsubscribeAll => []
    | _ => subscribers m
    end.
Proof.
  destruct (handle_spec config decode now ev m) as (_ & H & _). exact H.
Qed.

Lemma called_app (t1 t2 : list Effect) : called (t1 ++ t2) = called t1 ++ called t2.
Proof. apply flat_map_app. Qed.

Lemma called_notify_map (snapshot : State) (subs : list Subscriber) :
  called (map (fun f => Notify f snapshot) subs) = subs.
Proof.
  unfold called. induction subs as [|f l IH]; [reflexivity|].
  cbn [map flat_map app]. rewrite IH. reflexivity.
Qed.

Lemma called_transport (config : Config.t) (b : BodyWithContext.t) :
  called [transport config b] = [].
Proof. unfold transport. destruct (isUsingWebSockets config); reflexivity. Qed.

Lemma handle_called (config : Config.t) (decode : string -> Reply)
    (now : Time) (ev : Event) (m : Manager) (f : Subscriber) :
  In f (called (trace (handle config decode now ev m))) ->
  In f (subscribers m) \/ ev = Call (CallSubscribe f).
Proof.
  destruct (handle_spec config decode now ev m) as (_ & _ & Ht & _).
  rewrite Ht. unfold effectsOf.
  assert (G : forall request,
            In f (called
                    ((if publishes config decode ev
                      then map (fun g => Notify g
                                  (fromInternal (stateAfter config decode now ev (state m))))
                             (subscribers m)
                      else []) ++
                     match request with
                     | Some rq =>
                         [transport config
                            (bodyWithContext config (state m)
                               {| Body.userId := InternalState.userId (state m);
                                  Body.conversationId :=
                                    InternalState.conversationId (state m);
                                  Body.request := rq |})]
                     | None => []
                     end)) ->
            In f (subscribers m)).
  { intros request. rewrite called_app.
    assert (E : called match request with
                       | Some rq =>
                           [transport config
                              (bodyWithContext config (state m)
                                 {| Body.userId := InternalState.userId (state m);
                                    Body.conversationId :=
                                      InternalState.conversationId (state m);
                                    Body.request := rq |})]
                       | None => []
                       end = []).
    { destruct request; [apply called_transport|reflexivity]. }
    rewrite E, app_nil_r.
    destruct (publishes config decode ev); [|intros []].
    rewrite called_notify_map. tauto. }
  assert (G' : forall e, e = ev ->
            In f (called
                    ((if publishes config decode ev
                      then map (fun g => Notify g
                                  (fromInternal (stateAfter config decode now ev (state m))))
                             (subscribers m)
                      else []) ++
                     match requestOf e with
                     | Some rq =>
                         [transport config
                            (bodyWithContext config (state m)
                               {| Body.userId := InternalState.userId (state m);
                                  Body.conversationId :=
                                    InternalState.conversationId (state m);
                                  Body.request := rq |})]
                     | None => []
                     end)) ->
            In f (subscribers m) \/ ev = Call (CallSubscribe f)).
  { intros e _ H. left. exact (G (requestOf e) H). }
  clear G.
  destruct ev as [op|o|data]; try exact (G' _ eq_refl).
  destruct op; try exact (G' _ eq_refl).
  unfold called. cbn [flat_map app In]. intros [->|[]]. right. reflexivity.
Qed.

Lemma not_registered_after (config : Config.t) (decode : string -> Reply)
    (now : Time) (ev : Event) (m : Manager) (f : Subscriber) :
  ~ In f (subscribers m) ->
  ev <> Call (CallSubscribe f) ->
  ~ In f (subscribers (after (handle config decode now ev m))).
Proof.
  intros Hf Hev. destruct (handle_spec config decode now ev m) as (_ & Hr & _).
  rewrite Hr. destruct ev as [op|o|data]; try exact Hf.
  destruct op; cbn [registryAfter]; try exact Hf.
  - intros H. apply in_app_or in H. destruct H as [H|[->|[]]]; [tauto|].
    apply Hev. reflexivity.
  - intros H. apply List.in_remove in H. tauto.
  - intros [].
Qed.

(** A function that is not registered is never called: from a manager whose
    registry does not hold [f], whatever events follow (sends, replies,
    failures, resets, frames, other subscriptions), [f] is not called as long
    as nobody subscribes it again. This is what [unsubscribe(f)] and
    [unsubscribeAll()] buy. *)
Theorem unregistered_function_is_never_called
    (config : Config.t) (decode : string -> Reply)
    (f : Subscriber) (evs : list (Time * Event)) (m : Manager) :
  ~ In f (subscribers m) ->
  Forall (fun e => snd e <> Call (CallSubscribe f)) evs ->
  ~ In f (called (traceFrom config decode evs m)).
Proof.
  intros Hf Hevs. revert m Hf.
  induction Hevs as [|[now ev] evs Hev Hevs IH]; intros m Hf; [intros []|].
  cbn [traceFrom]. rewrite called_app. intros H. apply in_app_or in H.
  destruct H as [H|H].
  - apply handle_called in H. destruct H as [H|H]; [tauto|]. apply Hev. exact H.
  - revert H. apply IH. apply not_registered_after; assumption.
Qed.

Lemma unregistered_function_is_never_called_witness :
  ~ In 1 (subscribers oneUnsubscribed) /\
  Forall (fun e => snd e <> Call (CallSubscribe 1)) (firstExchange ++ secondExchange) /\
  ~ In 1 (called (traceFrom unaryConfig noPayload (firstExchange ++ secondExchange)
                    oneUnsubscribed)).
Proof.
  assert (H1 : ~ In 1 (subscribers oneUnsubscribed)).
  { vm_compute. lia. }
  assert (H2 : Forall (fun e => snd e <> Call (CallSubscribe 1))
                 (firstExchange ++ secondExchange)).
  { repeat constructor; discriminate. }
  split; [exact H1|]. split; [exact H2|].
  exact (unregistered_function_is_never_called unaryConfig noPayload 1
           (firstExchange ++ secondExchange) oneUnsubscribed H1 H2).
Defined.

(** ** The timeline over a lifetime *)

Lemma runFrom_length (config : Config.t) (decode : string -> Reply)
    (evs : list (Time * Event)) (m : Manager) :
  length (InternalState.responses (state (runFrom config decode evs m)))
  = length (InternalState.responses (state m)) +
    length (List.filter (fun e => appends config decode (snd e)) evs).
Proof.
  revert m. induction evs as [|[now ev] evs IH]; intros m; [cbn; lia|].
  cbn [runFrom List.filter snd]. rewrite IH.
  destruct (handle_spec config decode now ev m) as (Hs & _).
  rewrite Hs. cbn [stateAfter InternalState.responses].
  rewrite length_app, rewriteAll_length, entryOf_appends.
  destruct (appends config decode ev); cbn [length]; lia.
Qed.

Lemma createConversation_responses (config : Config.t) (now0 : Time) :
  InternalState.responses (state (after (createConversation config now0)))
  = InternalState.responses (initialState config now0).
Proof.
  rewrite createConversation_spec. unfold after. cbn [fst snd state].
  destruct (Config.triggerWelcomeIntent config) as [[|]|]; reflexivity.
Qed.

(** The length of the timeline counts what was appended: one entry when
    greetings are configured, plus one for every [sendText], every
    [sendChoice], every payload delivered to the response handler and every
    rejected call; nothing else ([sendSlots], [sendIntent], [sendStructured],
    discarded replies, resets, subscriptions, ignored frames) adds or removes
    an entry. *)
Theorem timeline_length_counts_appends
    (config : Config.t) (decode : string -> Reply)
    (now0 : Time) (evs : list (Time * Event)) :
  length (fromInternal (state (run config decode now0 evs)))
  = greeted config +
    length (List.filter (fun e => appends config decode (snd e)) evs).
Proof.
  unfold run, fromInternal. rewrite runFrom_length, createConversation_responses.
  f_equal. unfold initialState, greeted. cbn.
  destruct (Config.greetingMessages config) as [[|g gs]|]; reflexivity.
Qed.

Lemma restamped_refl (b : BotMessage.t) : restamped b b.
Proof. unfold restamped. repeat split. left. reflexivity. Qed.

Lemma restamped_trans (a b c : BotMessage.t) :
  restamped a b -> restamped b c -> restamped a c.
Proof.
  intros (I1 & T1 & C1 & S1) (I2 & T2 & C2 & S2). unfold restamped.
  split; [congruence|]. split; [congruence|]. split; [congruence|].
  destruct S2 as [S2|(x & Hx & S2)].
  - rewrite S2. exact S1.
  - right. exists x. split; [|exact S2].
    unfold offers in *. rewrite <- C1. exact Hx.
Qed.

Lemma Forall2_restamped_refl (l : list BotMessage.t) : Forall2 restamped l l.
Proof. induction l; constructor; [apply restamped_refl|assumption]. Qed.

Lemma Forall2_restamped_trans (l1 l2 l3 : list BotMessage.t) :
  Forall2 restamped l1 l2 -> Forall2 restamped l2 l3 -> Forall2 restamped l1 l3.
Proof.
  intros H. revert l3. induction H as [|a b l1 l2 Hab H IH]; intros l3 H3.
  - inversion H3. constructor.
  - inversion H3 as [|b' c l2' l3' Hbc H3']; subst.
    constructor; [eapply restamped_trans; eassumption|apply IH; assumption].
Qed.

Lemma keptEntry_refl (r : Response) : keptEntry r r.
Proof.
  destruct r as [t p|t u]; cbn; [|reflexivity].
  repeat split. apply Forall2_restamped_refl.
Qed.

Lemma keptEntry_trans (a b c : Response) :
  keptEntry a b -> keptEntry b c -> keptEntry a c.
Proof.
  destruct a as [t p|t u], b as [t' p'|t' u'], c as [t'' p''|t'' u'']; cbn;
    try tauto; try congruence.
  intros (E1 & E2 & E3 & E4 & E5 & F1) (G1 & G2 & G3 & G4 & G5 & F2).
  repeat split; try congruence.
  eapply Forall2_restamped_trans; eassumption.
Qed.

Lemma Forall2_keptEntry_refl (l : list Response) : Forall2 keptEntry l l.
Proof. induction l; constructor; [apply keptEntry_refl|assumption]. Qed.

Lemma Forall2_keptEntry_trans (l1 l2 l3 : list Response) :
  Forall2 keptEntry l1 l2 -> Forall2 keptEntry l2 l3 -> Forall2 keptEntry l1 l3.
Proof.
  intros H. revert l3. induction H as [|a b l1 l2 Hab H IH]; intros l3 H3.
  - inversion H3. constructor.
  - inversion H3 as [|b' c l2' l3' Hbc H3']; subst.
    constructor; [eapply keptEntry_trans; eassumption|apply IH; assumption].
Qed.

Lemma selectChoice_restamped (c : string) (b : BotMessage.t) :
  restamped b (selectChoice c b).
Proof.
  unfold restamped, selectChoice. cbn. repeat split.
  destruct (indexOf (map Choice.choiceId (BotMessage.choices b)) c >? -1)%Z eqn:E.
  - right. exists c. split; [|reflexivity]. apply indexOf_In. exact E.
  - left. reflexivity.
Qed.

Lemma rewriteAll_kept (ev : Event) (l : list Response) :
  Forall2 keptEntry l (rewriteAll ev l).
Proof.
  destruct ev as [op| |]; try apply Forall2_keptEntry_refl.
  destruct op; try apply Forall2_keptEntry_refl.
  cbn [rewriteAll]. induction l as [|r l IH]; constructor; [|exact IH].
  destruct r as [t p|t u]; cbn; [|reflexivity].
  repeat split.
  induction (BotResponsePayload.messages p) as [|b bs IHb]; constructor;
    [apply selectChoice_restamped|exact IHb].
Qed.

Lemma runFrom_kept (config : Config.t) (decode : string -> Reply)
    (evs : list (Time * Event)) (m : Manager) :
  exists kept added,
    InternalState.responses (state (runFrom config decode evs m)) = kept ++ added /\
    Forall2 keptEntry (InternalState.responses (state m)) kept.
Proof.
  revert m. induction evs as [|[now ev] evs IH]; intros m.
  - exists (InternalState.responses (state m)), []. cbn [runFrom].
    rewrite app_nil_r. split; [reflexivity|apply Forall2_keptEntry_refl].
  - cbn [runFrom]. destruct (IH (after (handle config decode now ev m)))
      as (kept & added & E & F).
    destruct (handle_spec config decode now ev m) as (Hs & _).
    rewrite Hs in F. cbn [stateAfter InternalState.responses] in F.
    apply Forall2_app_inv_l in F. destruct F as (k1 & k2 & F1 & F2 & ->).
    exists k1, (k2 ++ added). split.
    + rewrite E. symmetry. apply app_assoc.
    + eapply Forall2_keptEntry_trans; [apply rewriteAll_kept|exact F1].
Qed.

(** The timeline is append-only up to selection stamps: whatever happens
    after a point of a lifetime, the timeline of that point is still there,
    entry by entry and in order, at the head of the later timeline; a user
    turn is kept as it is, a bot turn keeps its time, its payload fields and
    its messages, each with the selection it had or a selection among its own
    choices. *)
Theorem timeline_is_append_only
    (config : Config.t) (decode : string -> Reply)
    (now0 : Time) (before later : list (Time * Event)) :
  exists kept added,
    fromInternal (state (run config decode now0 (before ++ later))) = kept ++ added /\
    Forall2 keptEntry (fromInternal (state (run config decode now0 before))) kept.
Proof.
  unfold run, fromInternal. rewrite runFrom_app. apply runFrom_kept.
Qed.

Lemma rewriteAll_no_choice (ev : Event) (l : list Response) :
  isSendChoice ev = false -> rewriteAll ev l = l.
Proof.
  destruct ev as [op| |]; try reflexivity. destruct op; try reflexivity. discriminate.
Qed.

(** Without [sendChoice] nothing is rewritten at all: when no choice is sent
    after a point of a lifetime, the timeline of that point is a prefix of
    every later timeline. *)
Theorem timeline_is_a_prefix_without_choices
    (config : Config.t) (decode : string -> Reply)
    (now0 : Time) (before later : list (Time * Event)) :
  forallb (fun e => negb (isSendChoice (snd e))) later = true ->
  exists added,
    fromInternal (state (run config decode now0 (before ++ later)))
    = fromInternal (state (run config decode now0 before)) ++ added.
Proof.
  unfold run, fromInternal. rewrite runFrom_app.
  generalize (runFrom config decode before (after (createConversation config now0))).
  induction later as [|[now ev] later IH]; intros m H.
  - exists []. cbn [runFrom]. rewrite app_nil_r. reflexivity.
  - cbn [forallb snd] in H. apply andb_prop in H. destruct H as [Hev H].
    apply negb_true_iff in Hev.
    cbn [runFrom]. destruct (IH (after (handle config decode now ev m)) H) as (added & E).
    destruct (handle_spec config decode now ev m) as (Hs & _).
    rewrite Hs in E. cbn [stateAfter InternalState.responses] in E.
    rewrite rewriteAll_no_choice in E by exact Hev.
    eexists. rewrite E. symmetry. apply app_assoc.
Qed.

Lemma timeline_is_a_prefix_without_choices_witness :
  forallb (fun e => negb (isSendChoice (snd e))) rejectedThenRetried = true /\
  exists added,
    fromInternal (state (run contextConfig noPayload 0%Z (firstExchange ++ rejectedThenRetried)))
    = fromInternal (state (run contextConfig noPayload 0%Z firstExchange)) ++ added.
Proof.
  split; [reflexivity|].
  apply (timeline_is_a_prefix_without_choices contextConfig noPayload 0%Z
           firstExchange rejectedThenRetried).
  reflexivity.
Defined.

Lemma botMessages_app (l1 l2 : list Response) :
  botMessages (l1 ++ l2) = botMessages l1 ++ botMessages l2.
Proof. apply flat_map_app. Qed.

Lemma selectChoice_selectionOffered (c : string) (b : BotMessage.t) :
  selectionOffered b -> selectionOffered (selectChoice c b).
Proof.
  unfold selectionOffered, selectChoice, offers. cbn.
  destruct (indexOf (map Choice.choiceId (BotMessage.choices b)) c >? -1)%Z eqn:E.
  - intros _. apply indexOf_In. exact E.
  - tauto.
Qed.

Lemma rewriteAll_selectionOffered (ev : Event) (l : list Response) :
  Forall selectionOffered (botMessages l) ->
  Forall selectionOffered (botMessages (rewriteAll ev l)).
Proof.
  destruct ev as [op| |]; try tauto. destruct op; try tauto.
  cbn [rewriteAll]. induction l as [|r l IH]; [tauto|].
  change (r :: l) with ([r] ++ l). rewrite map_app, !botMessages_app.
  intros H. apply Forall_app in H. destruct H as [H1 H2].
  apply Forall_app. split; [|apply IH; exact H2].
  destruct r as [t p|t u]; [|constructor].
  unfold botMessages in *. cbn in *. rewrite app_nil_r in *.
  induction (BotResponsePayload.messages p) as [|b bs IHb]; [constructor|].
  inversion H1; subst. constructor; [apply selectChoice_selectionOffered; assumption|].
  apply IHb. assumption.
Qed.

Lemma unselected_selectionOffered (l : list BotMessage.t) :
  Forall (fun b => BotMessage.selectedChoiceId b = None) l -> Forall selectionOffered l.
Proof.
  apply List.Forall_impl. intros b H. unfold selectionOffered. rewrite H. exact I.
Qed.

Lemma entryOf_unselected (config : Config.t) (decode : string -> Reply)
    (now : Time) (ev : Event) :
  Forall (fun b => BotMessage.selectedChoiceId b = None)
    (botMessages match entryOf config decode now ev with
                 | Some r => [r]
                 | None => []
                 end).
Proof.
  assert (R : forall p,
            Forall (fun b => BotMessage.selectedChoiceId b = None)
              (botMessages [BotResponse now (replyPayload p)])).
  { intros p. unfold botMessages. cbn. rewrite app_nil_r.
    apply Forall_map. apply Forall_forall. intros x _. reflexivity. }
  destruct ev as [op|[response|]|data]; cbn [entryOf].
  - destruct op; constructor.
  - destruct (delivered config decode (Settle (Resolved response))); [apply R|constructor].
  - unfold botMessages. cbn. rewrite app_nil_r.
    apply Forall_map. apply Forall_forall. intros x _. reflexivity.
  - destruct (delivered config decode (SocketMessage data)); [apply R|constructor].
Qed.

Lemma runFrom_selectionOffered (config : Config.t) (decode : string -> Reply)
    (evs : list (Time * Event)) (m : Manager) :
  Forall selectionOffered (botMessages (InternalState.responses (state m))) ->
  Forall selectionOffered
    (botMessages (InternalState.responses (state (runFrom config decode evs m)))).
Proof.
  revert m. induction evs as [|[now ev] evs IH]; intros m H; [exact H|].
  cbn [runFrom]. apply IH.
  destruct (handle_spec config decode now ev m) as (Hs & _).
  rewrite Hs. cbn [stateAfter InternalState.responses].
  rewrite botMessages_app. apply Forall_app. split.
  - apply rewriteAll_selectionOffered. exact H.
  - apply unselected_selectionOffered, entryOf_unselected.
Qed.

(** In every timeline a manager can reach, a bot message that has a
    [selectedChoiceId] has one of the choices it offers: greetings, replies
    and failure turns enter without a selection, and a selection is only
    ever stamped on a message that offers it. *)
Theorem selection_is_an_offered_choice
    (config : Config.t) (decode : string -> Reply)
    (now0 : Time) (evs : list (Time * Event)) :
  Forall selectionOffered
    (botMessages (fromInternal (state (run config decode now0 evs)))).
Proof.
  unfold run, fromInternal. apply runFrom_selectionOffered.
  rewrite createConversation_responses. apply unselected_selectionOffered.
  unfold initialState. cbn.
  destruct (Config.greetingMessages config) as [[|g gs]|]; [constructor| |constructor].
  unfold botMessages. cbn [flat_map BotResponsePayload.messages]. rewrite app_nil_r.
  constructor; [reflexivity|].
  apply Forall_map. apply Forall_forall. intros x _. reflexivity.
Qed.

Lemma ascending_snoc (l : list Time) (x : Time) :
  ascending l -> Forall (fun y => (y <= x)%Z) l -> ascending (l ++ [x]).
Proof.
  induction l as [|a l IH]; intros Ha Hb; [cbn; tauto|].
  inversion Hb as [|? ? Hax Hl]; subst. destruct Ha as [Ha1 Ha2].
  specialize (IH Ha2 Hl). cbn [app]. destruct l as [|b l]; cbn in *; tauto.
Qed.

Lemma timestamps_rewriteAll (ev : Event) (l : list Response) :
  timestamps (rewriteAll ev l) = timestamps l.
Proof.
  destruct ev as [op| |]; try reflexivity. destruct op; try reflexivity.
  cbn [rewriteAll]. unfold timestamps. rewrite map_map. apply map_ext.
  intros [t p|t u]; reflexivity.
Qed.

Lemma entryOf_receivedAt (config : Config.t) (decode : string -> Reply)
    (now : Time) (ev : Event) :
  timestamps match entryOf config decode now ev with
             | Some r => [r]
             | None => []
             end
  = if appends config decode ev then [now] else [].
Proof.
  destruct ev as [op|[response|]|data]; cbn [entryOf appends].
  - destruct op; reflexivity.
  - destruct (delivered config decode (Settle (Resolved response))); reflexivity.
  - reflexivity.
  - destruct (delivered config decode (SocketMessage data)); reflexivity.
Qed.

Lemma runFrom_ascending (config : Config.t) (decode : string -> Reply)
    (evs : list (Time * Event)) (m : Manager) (clock : Time) :
  ascending (clock :: map fst evs) ->
  ascending (timestamps (InternalState.responses (state m))) ->
  Forall (fun t => (t <= clock)%Z) (timestamps (InternalState.responses (state m))) ->
  ascending (timestamps (InternalState.responses (state (runFrom config decode evs m)))).
Proof.
  revert m clock. induction evs as [|[now ev] evs IH]; intros m clock Hc Ha Hb; [exact Ha|].
  cbn [runFrom]. cbn [map fst] in Hc. destruct Hc as [Hle Hc].
  destruct (handle_spec config decode now ev m) as (Hs & _).
  assert (E : timestamps (InternalState.responses
                            (state (after (handle config decode now ev m))))
              = timestamps (InternalState.responses (state m)) ++
                (if appends config decode ev then [now] else [])).
  { rewrite Hs. cbn [stateAfter InternalState.responses].
    unfold timestamps at 1. rewrite map_app.
    change (map receivedAt (rewriteAll ev (InternalState.responses (state m))))
      with (timestamps (rewriteAll ev (InternalState.responses (state m)))).
    rewrite timestamps_rewriteAll. f_equal. apply entryOf_receivedAt. }
  assert (Hb' : Forall (fun t => (t <= now)%Z)
                  (timestamps (InternalState.responses (state m)))).
  { revert Hb. apply List.Forall_impl. intros t Ht. lia. }
  apply (IH _ now Hc); rewrite E.
  - destruct (appends config decode ev); [|rewrite app_nil_r; exact Ha].
    apply ascending_snoc; assumption.
  - apply Forall_app. split; [exact Hb'|].
    destruct (appends config decode ev); repeat constructor. lia.
Qed.

(** When the clock never goes back (the time of construction, then the times
    of the events, in order), the [receivedAt] stamps of the timeline never
    go back either: every entry is stamped with the time of the event that
    appended it, and choice selection leaves the stamps alone. *)
Theorem timeline_follows_the_clock
    (config : Config.t) (decode : string -> Reply)
    (now0 : Time) (evs : list (Time * Event)) :
  ascending (now0 :: map fst evs) ->
  ascending (timestamps (fromInternal (state (run config decode now0 evs)))).
Proof.
  intros H. unfold run, fromInternal.
  apply (runFrom_ascending config decode evs _ now0 H);
    rewrite createConversation_responses; unfold initialState; cbn;
    destruct (Config.greetingMessages config) as [[|g gs]|]; cbn;
    repeat constructor; lia.
Qed.

Lemma timeline_follows_the_clock_witness :
  ascending (0%Z :: map fst mixedLifetime) /\
  ascending (timestamps (fromInternal (state (run contextConfig noPayload 0%Z mixedLifetime)))).
Proof.
  assert (H : ascending (0%Z :: map fst mixedLifetime)).
  { cbn. lia. }
  split; [exact H|].
  exact (timeline_follows_the_clock contextConfig noPayload 0%Z mixedLifetime H).
Defined.

(** ** What goes out *)

Lemma handle_dispatched (config : Config.t) (decode : string -> Reply)
    (now : Time) (ev : Event) (m : Manager) :
  dispatched (trace (handle config decode now ev m))
  = match requestOf ev with
    | Some request =>
        [bodyWithContext config (state m)
           {| Body.userId := InternalState.userId (state m);
              Body.conversationId := InternalState.conversationId (state m);
              Body.request := request |}]
    | None => []
    end.
Proof.
  destruct (handle_spec config decode now ev m) as (_ & _ & Ht & _).
  rewrite Ht. unfold effectsOf.
  assert (N : forall snapshot,
            dispatched (if publishes config decode ev
                        then map (fun f => Notify f snapshot) (subscribers m)
                        else []) = []).
  { intros snapshot. destruct (publishes config decode ev); [|reflexivity].
    induction (subscribers m) as [|f l IH]; [reflexivity|exact IH]. }
  destruct ev as [op|o|data].
  - destruct op; try (rewrite dispatched_app, N; cbn [requestOf app];
                      rewrite ?dispatched_transport; reflexivity).
    reflexivity.
  - rewrite dispatched_app, N. reflexivity.
  - rewrite dispatched_app, N. reflexivity.
Qed.

Lemma handle_userId (config : Config.t) (decode : string -> Reply)
    (now : Time) (ev : Event) (m : Manager) :
  InternalState.userId (state (after (handle config decode now ev m)))
  = InternalState.userId (state m).
Proof.
  destruct (handle_spec config decode now ev m) as (Hs & _). rewrite Hs. reflexivity.
Qed.

Lemma traceFrom_identity (config : Config.t) (decode : string -> Reply)
    (evs : list (Time * Event)) (m : Manager) :
  Forall (fun b =>
            BodyWithContext.userId b = InternalState.userId (state m) /\
            BodyWithContext.languageCode b = Config.languageCode config /\
            BodyWithContext.channelType b
              = match Config.experimental config with
                | Some e => Experimental.channelType e
                | None => None
                end)
    (dispatched (traceFrom config decode evs m)).
Proof.
  revert m. induction evs as [|[now ev] evs IH]; intros m; [constructor|].
  cbn [traceFrom]. rewrite dispatched_app. apply Forall_app. split.
  - rewrite handle_dispatched. destruct (requestOf ev); repeat constructor.
  - specialize (IH (after (handle config decode now ev m))).
    rewrite handle_userId in IH. exact IH.
Qed.

(** Every body put on the transport in a lifetime, the welcome intent
    included, carries the configured [userId], [languageCode] and
    [experimental.channelType] (each absent when not configured): the user id
    of the manager is the configured one from construction on and no event
    changes it. *)
Theorem every_call_carries_the_configured_identity
    (config : Config.t) (decode : string -> Reply)
    (now0 : Time) (evs : list (Time * Event)) :
  InternalState.userId (state (run config decode now0 evs)) = Config.userId config /\
  Forall (fun b =>
            BodyWithContext.userId b = Config.userId config /\
            BodyWithContext.languageCode b = Config.languageCode config /\
            BodyWithContext.channelType b
              = match Config.experimental config with
                | Some e => Experimental.channelType e
                | None => None
                end)
    (dispatched (runTrace config decode now0 evs)).
Proof.
  assert (U : InternalState.userId (state (after (createConversation config now0)))
              = Config.userId config).
  { rewrite createConversation_spec. unfold after. cbn [fst snd state].
    destruct (Config.triggerWelcomeIntent config) as [[|]|]; reflexivity. }
  split.
  - unfold run.
    generalize dependent (after (createConversation config now0)).
    induction evs as [|[now ev] evs IH]; intros m U; [exact U|].
    cbn [runFrom]. apply IH. rewrite handle_userId. exact U.
  - unfold runTrace. rewrite dispatched_app. apply Forall_app. split.
    + rewrite createConversation_spec. unfold trace. cbn [snd].
      rewrite dispatched_app.
      assert (O : dispatched (if isUsingWebSockets config
                              then [SocketOpen (Config.botUrl config)] else []) = []).
      { destruct (isUsingWebSockets config); reflexivity. }
      rewrite O.
      destruct (Config.triggerWelcomeIntent config) as [[|]|]; try constructor.
      * rewrite app_nil_l, dispatched_transport. repeat constructor.
    + pose proof (traceFrom_identity config decode evs
                    (after (createConversation config now0))) as H.
      rewrite U in H. exact H.
Qed.

Lemma traceFrom_ids (config : Config.t) (decode : string -> Reply)
    (evs : list (Time * Event)) (m : Manager) :
  map BodyWithContext.conversationId (dispatched (traceFrom config decode evs m))
  = idsSent config decode evs (InternalState.conversationId (state m)).
Proof.
  revert m. induction evs as [|[now ev] evs IH]; intros m; [reflexivity|].
  cbn [traceFrom idsSent]. rewrite dispatched_app, map_app, IH, handle_conversationId.
  f_equal. rewrite handle_dispatched. destruct (requestOf ev); reflexivity.
Qed.

(** Each call carries the conversation id of the moment it is made: none
    until a payload has been delivered, then the id of the latest delivered
    payload, and none again after [reset()] until the next payload. The
    welcome intent, fired at construction, carries none. *)
Theorem calls_carry_the_current_conversationId
    (config : Config.t) (decode : string -> Reply)
    (now0 : Time) (evs : list (Time * Event)) :
  map BodyWithContext.conversationId (dispatched (runTrace config decode now0 evs))
  = match Config.triggerWelcomeIntent config with
    | Some true => [None]
    | _ => []
    end ++ idsSent config decode evs None.
Proof.
  unfold runTrace. rewrite dispatched_app, map_app, traceFrom_ids.
  rewrite createConversation_conversationId. f_equal.
  rewrite createConversation_spec. unfold trace. cbn [snd]. rewrite dispatched_app.
  assert (O : dispatched (if isUsingWebSockets config
                          then [SocketOpen (Config.botUrl config)] else []) = []).
  { destruct (isUsingWebSockets config); reflexivity. }
  rewrite O.
  destruct (Config.triggerWelcomeIntent config) as [[|]|]; try reflexivity.
  rewrite app_nil_l, dispatched_transport. reflexivity.
Qed.

Example ids_of_a_mixed_lifetime :
  map BodyWithContext.conversationId
    (dispatched (runTrace contextConfig noPayload 0%Z mixedLifetime))
  = [None; Some "c1"; None].
Proof. vm_compute. reflexivity. Qed.

(** ** The two transports *)

Lemma prefix_app (s1 s2 : string) :
  String.prefix s1 s2 = true <-> exists rest, s2 = (s1 ++ rest)%string.
Proof.
  revert s2. induction s1 as [|a s1 IH]; intros s2.
  - split; [intros _; exists s2; reflexivity|]. intros _. destruct s2; reflexivity.
  - destruct s2 as [|b s2]; cbn.
    + split; [discriminate|intros (rest & H); discriminate H].
    + destruct (ascii_dec a b) as [->|Hne].
      * rewrite IH. split; intros (rest & H); exists rest; [rewrite H; reflexivity|].
        injection H as H. exact H.
      * split; [discriminate|]. intros (rest & H). injection H as H1 H2. congruence.
Qed.

(** The streaming transport is chosen exactly for the endpoints that begin
    with [wss://]; every other endpoint, the empty one and [ws://] included,
    gets the unary transport. *)
Theorem streaming_iff_wss_endpoint (config : Config.t) :
  isUsingWebSockets config = true
  <-> exists rest, Config.botUrl config = ("wss://" ++ rest)%string.
Proof.
  rewrite <- prefix_app. unfold isUsingWebSockets.
  destruct (Config.botUrl config) as [|b url]; [cbn; split; discriminate|].
  cbn [String.index].
  destruct (String.prefix "wss://" (String b url)); [tauto|].
  destruct (String.index 0 "wss://" url); split; discriminate.
Qed.

Lemma handle_effects (config : Config.t) (decode : string -> Reply)
    (now : Time) (ev : Event) (m : Manager) :
  Forall (fun e => isNotify e = true \/ exists b, e = transport config b)
    (trace (handle config decode now ev m)).
Proof.
  destruct (handle_spec config decode now ev m) as (_ & _ & Ht & _).
  rewrite Ht. unfold effectsOf.
  assert (G : forall snapshot request,
            Forall (fun e => isNotify e = true \/ exists b, e = transport config b)
              ((if publishes config decode ev
                then map (fun f => Notify f snapshot) (subscribers m)
                else []) ++
               match request with
               | Some rq =>
                   [transport config
                      (bodyWithContext config (state m)
                         {| Body.userId := InternalState.userId (state m);
                            Body.conversationId := InternalState.conversationId (state m);
                            Body.request := rq |})]
               | None => []
               end)).
  { intros snapshot request. apply Forall_app. split.
    - destruct (publishes config decode ev); [|constructor].
      apply Forall_map. apply Forall_forall. intros f _. left. reflexivity.
    - destruct request; [|constructor].
      constructor; [right; eexists; reflexivity|constructor]. }
  destruct ev as [op|o|data]; try apply G.
  destruct op; try apply G.
  constructor; [left; reflexivity|constructor].
Qed.

Lemma runTrace_shape (config : Config.t) (decode : string -> Reply)
    (now0 : Time) (evs : list (Time * Event)) :
  exists rest,
    runTrace config decode now0 evs
    = (if isUsingWebSockets config then [SocketOpen (Config.botUrl config)] else []) ++ rest /\
    Forall (fun e => isNotify e = true \/ exists b, e = transport config b) rest.
Proof.
  unfold runTrace. rewrite createConversation_spec. unfold trace at 1, after. cbn [fst snd].
  eexists. rewrite <- app_assoc. split; [reflexivity|].
  apply Forall_app. split.
  - destruct (Config.triggerWelcomeIntent config) as [[|]|]; [|constructor|constructor].
    constructor; [right; eexists; reflexivity|constructor].
  - generalize {| state := match Config.triggerWelcomeIntent config with
                           | Some true => contextMarked (initialState config now0)
                           | _ => initialState config now0
                           end;
                  subscribers := [] |}.
    induction evs as [|[now ev] evs IH]; intros m; [constructor|].
    cbn [traceFrom]. apply Forall_app. split; [apply handle_effects|apply IH].
Qed.

Lemma filter_none {A} (f : A -> bool) (l : list A) :
  Forall (fun x => f x = false) l -> List.filter f l = [].
Proof.
  induction 1 as [|x l Hx Hl IH]; [reflexivity|]. cbn. rewrite Hx. exact IH.
Qed.

(** A lifetime uses one transport. On the streaming transport the socket is
    opened once, at construction and to the configured endpoint, and nothing
    is ever posted; on the unary transport no socket is opened or written
    to, and every call is a post to the configured endpoint. *)
Theorem a_lifetime_uses_one_transport
    (config : Config.t) (decode : string -> Reply)
    (now0 : Time) (evs : list (Time * Event)) :
  let t := runTrace config decode now0 evs in
  if isUsingWebSockets config
  then List.filter isFetchPost t = [] /\
       List.filter isSocketOpen t = [SocketOpen (Config.botUrl config)] /\
       List.head t = Some (SocketOpen (Config.botUrl config))
  else List.filter isSocketEffect t = [] /\
       Forall (fun e => match e with
                        | FetchPost url _ _ => url = Config.botUrl config
                        | _ => True
                        end) t.
Proof.
  cbv zeta. destruct (runTrace_shape config decode now0 evs) as (rest & E & F).
  rewrite E. unfold transport in F.
  destruct (isUsingWebSockets config).
  - assert (F1 : Forall (fun e => isFetchPost e = false) rest).
    { revert F. apply List.Forall_impl. intros e [H|(b & ->)]; [|reflexivity].
      destruct e; try discriminate H. reflexivity. }
    assert (F2 : Forall (fun e => isSocketOpen e = false) rest).
    { revert F. apply List.Forall_impl. intros e [H|(b & ->)]; [|reflexivity].
      destruct e; try discriminate H. reflexivity. }
    cbn [app List.filter isFetchPost isSocketOpen List.head].
    rewrite (filter_none _ _ F1), (filter_none _ _ F2). repeat split.
  - cbn [app]. split.
    + apply filter_none. revert F. apply List.Forall_impl.
      intros e [H|(b & ->)]; [|reflexivity].
      destruct e; try discriminate H. reflexivity.
    + revert F. apply List.Forall_impl. intros e [H|(b & ->)]; [|reflexivity].
      destruct e; try discriminate H. exact I.
Qed.

(** Every post of a lifetime declares its body as JSON: the [content-type]
    header is [application/json] even when the configured headers say
    otherwise, and every other header is the configured one (absent when it
    is not configured). *)
Theorem every_post_is_declared_as_json
    (config : Config.t) (decode : string -> Reply)
    (now0 : Time) (evs : list (Time * Event)) :
  Forall (fun e => match e with
                   | FetchPost _ headers _ =>
                       headers !! "content-type" = Some "application/json" /\
                       forall name, name <> "content-type" ->
                                    headers !! name = configuredHeaders config !! name
                   | _ => True
                   end)
    (runTrace config decode now0 evs).
Proof.
  destruct (runTrace_shape config decode now0 evs) as (rest & E & F).
  rewrite E. apply Forall_app. split.
  - destruct (isUsingWebSockets config); repeat constructor.
  - revert F. apply List.Forall_impl. intros e [H|(b & ->)].
    + destruct e; try discriminate H. exact I.
    + unfold transport. destruct (isUsingWebSockets config); [exact I|].
      split.
      * apply lookup_insert_eq.
      * intros name Hname. unfold configuredHeaders.
        apply lookup_insert_ne. congruence.
Qed.

Example welcoming_post_headers :
  match runTrace welcomingConfig noPayload 0%Z [] with
  | [FetchPost url headers body] =>
      url = "https://bot.example/api" /\
      headers !! "content-type" = Some "application/json" /\
      headers !! "x-api-key" = Some "k" /\
      BodyWithContext.request body
        = Structured {| StructuredRequest.intentId := Some "NLX.Welcome";
                        StructuredRequest.choiceId := None;
                        StructuredRequest.slots := None |}
  | _ => False
  end.
Proof. vm_compute. repeat split. Qed.

(** ** Replies and frames *)

(** A call that resolves with a payload returns normally and adds one bot
    turn at the end of the timeline, stamped with the time of the reply: its
    messages are the messages of the payload, one for one and in order, with
    their ids and texts, with their choices (none when the payload gives
    none) and without a selection; the conversation id, the metadata, the
    payload string and the context are passed through. The manager takes the
    conversation id of the payload, every subscriber is called with the new
    timeline, nothing is dispatched and no failure turn is made. *)
Theorem resolved_payload_appends_a_bot_turn
    (config : Config.t) (now : Time) (p : WirePayload.t) (m : Manager) :
  let r := settled config now (Resolved (ReplyPayload p)) m in
  completion r = Normal tt /\
  InternalState.conversationId (state (after r)) = WirePayload.conversationId p /\
  InternalState.contextSent (state (after r)) = InternalState.contextSent (state m) /\
  exists payload,
    InternalState.responses (state (after r))
      = InternalState.responses (state m) ++ [BotResponse now payload] /\
    Forall2 carries (WirePayload.messages p) (BotResponsePayload.messages payload) /\
    BotResponsePayload.conversationId payload = WirePayload.conversationId p /\
    BotResponsePayload.metadata payload = WirePayload.metadata p /\
    BotResponsePayload.payload payload = WirePayload.payload p /\
    BotResponsePayload.context payload = WirePayload.context p /\
    trace r
      = map (fun f => Notify f (InternalState.responses (state m) ++ [BotResponse now payload]))
          (subscribers m).
Proof.
  cbv zeta. rewrite settled_resolved, messageResposeHandler_eq.
  unfold completion, after, trace. cbn [fst snd state].
  cbn [InternalState.conversationId InternalState.contextSent InternalState.responses].
  repeat split. exists (replyPayload p). repeat split.
  unfold replyPayload. cbn [BotResponsePayload.messages].
  induction (WirePayload.messages p) as [|w ws IH]; constructor; [|exact IH].
  unfold carries. repeat split.
Qed.


(** ** Construction *)


(** With [triggerWelcomeIntent] construction makes exactly one call: the
    structured intent [NLX.Welcome], with the configured user id and
    passthrough fields, no conversation id, and the configured context (the
    one-shot context is then spent); without it construction makes no call
    and the context is still to be sent. *)
Theorem welcome_intent_is_the_first_call (config : Config.t) (now0 : Time) :
  let r := createConversation config now0 in
  match Config.triggerWelcomeIntent config with
  | Some true =>
      dispatched (trace r)
        = [{| BodyWithContext.context := Config.context config;
              BodyWithContext.userId := Config.userId config;
              BodyWithContext.conversationId := None;
              BodyWithContext.request :=
                Structured {| StructuredRequest.intentId := Some "NLX.Welcome";
                              StructuredRequest.choiceId := None;
                              StructuredRequest.slots := None |};
              BodyWithContext.languageCode := Config.languageCode config;
              BodyWithContext.channelType :=
                match Config.experimental config with
                | Some e => Experimental.channelType e
                | None => None
                end |}] /\
      InternalState.contextSent (state (after r)) = true
  | _ =>
      dispatched (trace r) = [] /\
      InternalState.contextSent (state (after r)) = false
  end.
Proof.
  cbv zeta. rewrite createConversation_spec. unfold after, trace. cbn [fst snd state].
  rewrite dispatched_app.
  assert (O : dispatched (if isUsingWebSockets config
                          then [SocketOpen (Config.botUrl config)] else []) = []).
  { destruct (isUsingWebSockets config); reflexivity. }
  rewrite O.
  destruct (Config.triggerWelcomeIntent config) as [[|]|]; try (split; reflexivity).
  rewrite app_nil_l, dispatched_transport. split; [|reflexivity].
  unfold bodyWithContext. cbn. destruct (Config.context config); reflexivity.
Qed.

(** ** Structured requests *)

(** [sendIntent(id)] is [sendStructured({intentId: id})] and [sendSlots(s)]
    is [sendStructured({slots: s})]: same state, same effects.
    [sendStructured({choiceId: c})] puts on the transport the very body
    [sendChoice(c)] does and spends the context in the same way, but it
    leaves the timeline as it is, where [sendChoice(c)] stamps it and adds
    the user's turn. *)
Theorem structured_requests_agree
    (config : Config.t) (now : Time) (m : Manager)
    (intentId choiceId : string) (slots : list Slot.t) :
  let asChoice :=
    sendStructured config
      {| StructuredRequest.choiceId := Some choiceId;
         StructuredRequest.intentId := None;
         StructuredRequest.slots := None |} m in
  sendIntent config intentId m
    = sendStructured config
        {| StructuredRequest.intentId := Some intentId;
           StructuredRequest.choiceId := None;
           StructuredRequest.slots := None |} m /\
  sendSlots config slots m
    = sendStructured config
        {| StructuredRequest.slots := Some slots;
           StructuredRequest.choiceId := None;
           StructuredRequest.intentId := None |} m /\
  dispatched (trace asChoice) = dispatched (trace (sendChoice config now choiceId m)) /\
  InternalState.contextSent (state (after asChoice))
    = InternalState.contextSent (state (after (sendChoice config now choiceId m))) /\
  InternalState.responses (state (after asChoice)) = InternalState.responses (state m) /\
  length (InternalState.responses (state (after (sendChoice config now choiceId m))))
    = S (length (InternalState.responses (state m))).
Proof.
  cbv zeta. split; [reflexivity|]. split; [reflexivity|].
  rewrite sendStructured_eq, sendChoice_eq. unfold after, trace. cbn [fst snd state].
  rewrite !contextMarked_eq. cbn [InternalState.contextSent InternalState.responses].
  rewrite dispatched_app, dispatched_notifications, !dispatched_transport.
  repeat split.
  cbn. rewrite length_app, length_map. cbn. lia.
Qed.
